(** * Immich vector search and database lifecycle: a shallow embedding

    The development follows the TypeScript sources:

    - [infra.utils]: [OptionalBetween], [isValidInteger], [paginationHelper],
      [paginate], [paginatedBuilder], [Chunked], [searchAssetBuilder];
    - [database.service]: [DatabaseService.init] and its four assertions;
    - [database.repository]: [updateCLIPDimSize], [withLock], [isBusy];
    - [smart-info.repository]: [searchFaces], [upsert].

    Part I holds the definitions, Part II the lemmas about them. *)

From Stdlib Require Import QArith ZArith Lia String List Bool Sorted.
From stdpp Require Import base list gmap strings.
Close Scope Q_scope.

(* ================================================================== *)
(** * Part I. Definitions                                              *)
(* ================================================================== *)

(** ** JavaScript values shared by the modules *)

Module Js.

(** A JavaScript [number]: a finite value (kept exact as a rational), or one
    of the three non-finite values. *)
Inductive number : Type :=
| Num (q : Q)
| NaN
| PosInfinity
| NegInfinity.

Definition ofZ (z : Z) : number := Num (inject_Z z).

(** [Number.isInteger]. *)
Definition isInteger (v : number) : bool :=
  match v with
  | Num q => Pos.eqb (Qden (Qred q)) 1
  | _ => false
  end.

(** [value >= bound] for an integer bound. *)
Definition geZ (v : number) (bound : Z) : bool :=
  match v with
  | Num q => Qle_bool (inject_Z bound) q
  | PosInfinity => true
  | NaN | NegInfinity => false
  end.

(** [value <= bound] for an integer bound. *)
Definition leZ (v : number) (bound : Z) : bool :=
  match v with
  | Num q => Qle_bool q (inject_Z bound)
  | NegInfinity => true
  | NaN | PosInfinity => false
  end.

(** [a === b] on numbers. *)
Definition strictEq (a b : number) : bool :=
  match a, b with
  | Num p, Num q => Qeq_bool p q
  | PosInfinity, PosInfinity => true
  | NegInfinity, NegInfinity => true
  | _, _ => false
  end.

(** Truthiness of a number: [0] and [NaN] are falsy. *)
Definition truthy (v : number) : bool :=
  match v with
  | Num q => negb (Qeq_bool q 0)
  | NaN => false
  | PosInfinity | NegInfinity => true
  end.

(** The integer a number stands for, when it is one. *)
Definition toZ (v : number) : Z :=
  match v with
  | Num q => Qnum (Qred q)
  | _ => 0%Z
  end.

(** Truthiness of an optional string: [undefined] and [''] are falsy. *)
Definition truthyString (s : option string) : bool :=
  match s with
  | None => false
  | Some s => negb (String.eqb s "")
  end.

(** Truthiness of an optional boolean flag. *)
Definition truthyFlag (b : option bool) : bool :=
  match b with
  | Some true => true
  | _ => false
  end.

(** Column values of a database row. *)
Inductive Value : Type :=
| VNull
| VBool (b : bool)
| VStr (s : string)
| VNum (q : Q)
| VDate (t : Z)
| VVec (v : list Q).

Definition MIN_SAFE_INTEGER : Z := (- (2 ^ 53 - 1))%Z.
Definition MAX_SAFE_INTEGER : Z := (2 ^ 53 - 1)%Z.

End Js.

(** ** Exceptions *)

(** The errors the modelled code raises, one constructor per [throw]. *)
Inductive Error : Type :=
| InvalidCLIPDimSize (dimSize : Js.number)
| CouldNotRetrieveCLIPDimSize
| InvalidNumResults (numResults : Js.number)
| PostgresTooOld (major minimum : Z)
| ExtensionNotInstalled
| ExtensionVersionRejected
| QueryFailed (msg : string)
| TypeError
| CallbackError (msg : string)
| EntityPropertyNotFound
| RelationNotFound.

(** The outcome of an awaited call: it returned, it threw, or it is still
    waiting (for a lock that is held). *)
Inductive Exc (A : Type) : Type :=
| Returned (a : A)
| Threw (e : Error)
| Pending.
Arguments Returned {A} a.
Arguments Threw {A} e.
Arguments Pending {A}.

(** Code that threads a state [S] and may throw.  The state reached when an
    exception is thrown is kept: JavaScript undoes nothing. *)
Definition M (S A : Type) : Type := S → Exc A * S.

Definition ret {S A : Type} (a : A) : M S A := λ s, (Returned a, s).

Definition throw {S A : Type} (e : Error) : M S A := λ s, (Threw e, s).

Definition bind {S A B : Type} (c : M S A) (k : A → M S B) : M S B :=
  λ s,
    match c s with
    | (Returned a, s') => k a s'
    | (Threw e, s') => (Threw e, s')
    | (Pending, s') => (Pending, s')
    end.

Definition gets {S A : Type} (f : S → A) : M S A := λ s, (Returned (f s), s).

Definition modify {S : Type} (f : S → S) : M S unit := λ s, (Returned tt, f s).

Notation "'let*' x ':=' c1 'in' c2" := (bind c1 (λ x, c2))
  (at level 10, x name, c1 at level 100, c2 at level 200).
Notation "'run' c1 'in' c2" := (bind c1 (λ _, c2))
  (at level 10, c1 at level 100, c2 at level 200).

(** [try { body } finally { cleanup }]: [cleanup] runs whether [body]
    returned or threw, and an exception of [cleanup] replaces the outcome
    of [body].  A [body] that is still waiting has not reached [finally]. *)
Definition tryFinally {S A : Type} (body : M S A) (cleanup : M S unit) : M S A :=
  λ s,
    match body s with
    | (Pending, s') => (Pending, s')
    | (r, s') =>
        match cleanup s' with
        | (Returned _, s'') => (r, s'')
        | (Threw e, s'') => (Threw e, s'')
        | (Pending, s'') => (Pending, s'')
        end
    end.

(** ** infra.utils: validation and pagination *)

Module InfraUtils.

Record IntegerOptions : Type := {
  opt_min : option Z;
  opt_max : option Z
}.

(** [isValidInteger(value, { min, max })]. *)
Definition isValidInteger (value : Js.number) (options : IntegerOptions) : bool :=
  let min := default Js.MIN_SAFE_INTEGER (opt_min options) in
  let max := default Js.MAX_SAFE_INTEGER (opt_max options) in
  Js.isInteger value && Js.geZ value min && Js.leZ value max.

Record PaginationResult (Entity : Type) : Type := {
  items : list Entity;
  hasNextPage : bool
}.
Arguments items {Entity} _.
Arguments hasNextPage {Entity} _.

(** [paginationHelper(items, take)]: [items.splice(take)] drops everything
    from index [take] on. *)
Definition paginationHelper {Entity : Type} (items : list Entity) (take : nat)
  : PaginationResult Entity :=
  {| items := firstn take items;
     hasNextPage := take <? length items |}.

(** The part of TypeORM's [FindManyOptions] used here.  [_.omitBy(...,
    _.isUndefined)] removes an absent [skip], which [None] stands for. *)
Record FindManyOptions (Entity : Type) : Type := {
  find_where : option (Entity → bool);
  find_take : option nat;
  find_skip : option nat
}.
Arguments find_where {Entity} _.
Arguments find_take {Entity} _.
Arguments find_skip {Entity} _.

(** The rows a query with the given options selects from the rows of the
    table, which are given in the deterministic order of the query. *)
Definition selectRows {Entity : Type} (rows : list Entity) (o : FindManyOptions Entity)
  : list Entity :=
  let matching :=
    match find_where o with
    | Some p => List.filter p rows
    | None => rows
    end in
  let skipped :=
    match find_skip o with
    | Some n => skipn n matching
    | None => matching
    end in
  match find_take o with
  | Some n => firstn n skipped
  | None => skipped
  end.

(** A TypeORM [Repository]: the rows of its table and the calls of [find]
    it has received, each with the rows it answered. *)
Record Repository (Entity : Type) : Type := {
  table : list Entity;
  received : list (FindManyOptions Entity * list Entity)
}.
Arguments table {Entity} _.
Arguments received {Entity} _.

(** [repository.find(options)]: the rows found, and the repository after
    the call. *)
Definition find {Entity : Type} (repository : Repository Entity)
    (o : FindManyOptions Entity) : list Entity * Repository Entity :=
  let found := selectRows (table repository) o in
  (found,
   {| table := table repository;
      received := received repository ++ [(o, found)] |}).

Record PaginationOptions : Type := {
  take : nat;
  skip : option nat
}.

(** [paginate(repository, { take, skip }, searchOptions)]: the page, and
    the repository after the call. *)
Definition paginate {Entity : Type} (repository : Repository Entity)
    (p : PaginationOptions) (searchOptions : option (Entity → bool))
  : PaginationResult Entity * Repository Entity :=
  let '(items, repository) :=
    find repository
      {| find_where := searchOptions;
         find_take := Some (take p + 1);
         find_skip := skip p |} in
  (paginationHelper items (take p), repository).

(** [PaginationMode] of domain.util. *)
Inductive PaginationMode : Type :=
| LIMIT_OFFSET
| SKIP_TAKE.

Record PaginatedBuilderOptions : Type := {
  pb_take : nat;
  pb_skip : nat;
  pb_mode : option PaginationMode
}.

(** The pagination state of a [SelectQueryBuilder]. *)
Record QueryPaging : Type := {
  qb_limit : option nat;
  qb_offset : option nat;
  qb_skip : option nat;
  qb_take : option nat
}.

Definition noPaging : QueryPaging :=
  {| qb_limit := None; qb_offset := None; qb_skip := None; qb_take := None |}.

Definition limit (n : nat) (qb : QueryPaging) : QueryPaging :=
  {| qb_limit := Some n; qb_offset := qb_offset qb;
     qb_skip := qb_skip qb; qb_take := qb_take qb |}.

Definition offset (n : nat) (qb : QueryPaging) : QueryPaging :=
  {| qb_limit := qb_limit qb; qb_offset := Some n;
     qb_skip := qb_skip qb; qb_take := qb_take qb |}.

Definition qskip (n : nat) (qb : QueryPaging) : QueryPaging :=
  {| qb_limit := qb_limit qb; qb_offset := qb_offset qb;
     qb_skip := Some n; qb_take := qb_take qb |}.

Definition qtake (n : nat) (qb : QueryPaging) : QueryPaging :=
  {| qb_limit := qb_limit qb; qb_offset := qb_offset qb;
     qb_skip := qb_skip qb; qb_take := Some n |}.

Definition dropOpt {A : Type} (n : option nat) (l : list A) : list A :=
  match n with Some n => skipn n l | None => l end.

Definition keepOpt {A : Type} (n : option nat) (l : list A) : list A :=
  match n with Some n => firstn n l | None => l end.

(** Truthiness of an optional count: [undefined] and [0] are falsy. *)
Definition truthyCount (n : option nat) : bool :=
  match n with Some (S _) => true | _ => false end.

(** [qb.getMany()] on a query without joins, as the builder writes its
    [LIMIT] and [OFFSET]: [skip] and [take] stand in for [offset] and
    [limit] when neither of these is set, and a count that is not set or
    is 0 writes no clause. *)
Definition getMany {Entity : Type} (rows : list Entity) (qb : QueryPaging)
  : list Entity :=
  let unset := negb (truthyCount (qb_offset qb)) && negb (truthyCount (qb_limit qb)) in
  let offset := if unset then qb_skip qb else qb_offset qb in
  let limit := if unset then qb_take qb else qb_limit qb in
  keepOpt (if truthyCount limit then limit else None)
    (dropOpt (if truthyCount offset then offset else None) rows).

(** [paginatedBuilder(qb, { take, skip, mode })]. *)
Definition paginatedBuilder {Entity : Type} (rows : list Entity)
    (qb : QueryPaging) (o : PaginatedBuilderOptions)
  : PaginationResult Entity :=
  let qb' :=
    match pb_mode o with
    | Some LIMIT_OFFSET => offset (pb_skip o) (limit (pb_take o + 1) qb)
    | _ => qtake (pb_skip o) (qskip (pb_take o + 1) qb)
    end in
  paginationHelper (getMany rows qb') (pb_take o).

End InfraUtils.

(** ** infra.utils: the [Chunked] decorator *)

Module Chunking.

(** What a wrapped method can return: nothing, a plain value, an array or
    a set. *)
#[warnings="-register-all"]
Inductive JsVal (B : Type) `{Countable B} : Type :=
| JUndefined
| JAtom (b : B)
| JArray (l : list (JsVal B))
| JSet (s : gset B).
Arguments JUndefined {B _ _}.
Arguments JAtom {B _ _} b.
Arguments JArray {B _ _} l.
Arguments JSet {B _ _} s.

(** Modelled from the spec: [chunks] of domain.util is not among the
    sources.  It "chunks a caller-supplied collection to a bounded size":
    the elements are taken in order, a chunk is closed when it reaches
    [size], and a last, shorter chunk holds the rest. *)
Fixpoint chunksFrom {A : Type} (size : nat) (chunk : list A) (l : list A)
  : list (list A) :=
  match l with
  | [] => match chunk with [] => [] | _ => [chunk] end
  | x :: l' =>
      let chunk' := chunk ++ [x] in
      if length chunk' =? size
      then chunk' :: chunksFrom size [] l'
      else chunksFrom size chunk' l'
  end.

Definition chunks {A : Type} (collection : list A) (size : nat) : list (list A) :=
  chunksFrom size [] collection.

(** [Chunked(options)] applied to [originalMethod], called with the
    collection [arg] at [paramIndex].  [chunkSize] is
    [DATABASE_PARAMETER_CHUNK_SIZE].  The second component lists the
    arguments [originalMethod] was invoked with, in order.  The callback
    mapped over the chunks awaits [originalMethod] and returns nothing, so
    every entry of [results] is [undefined].  [originalMethod] is taken
    to settle with a value on every chunk. *)
Definition Chunked {A B : Type} `{Countable B}
    (chunkSize : nat) (mergeFn : option (JsVal B → JsVal B))
    (originalMethod : list A → JsVal B) (arg : list A)
  : JsVal B * list (list A) :=
  if length arg <=? chunkSize
  then (originalMethod arg, [arg])
  else
    let cs := chunks arg chunkSize in
    let results :=
      JArray (map (λ chunk, let _ := originalMethod chunk in JUndefined) cs) in
    (match mergeFn with Some f => f results | None => results end, cs).

(** lodash's [_.flatten]: one level of nesting is removed. *)
Definition flatten {B : Type} `{Countable B} (v : JsVal B) : JsVal B :=
  match v with
  | JArray l =>
      JArray (flat_map (λ e, match e with JArray inner => inner | _ => [e] end) l)
  | _ => JArray []
  end.

(** Modelled from the spec: [setUnion] of domain.util is not among the
    sources.  Results are merged by "set-union for set results"; an entry
    that is not a set has no elements to add. *)
Definition setUnion {B : Type} `{Countable B} (v : JsVal B) : JsVal B :=
  match v with
  | JArray l =>
      JSet (foldr (λ e acc, match e with JSet s => s ∪ acc | _ => acc end) ∅ l)
  | _ => JSet ∅
  end.

Definition ChunkedArray {A B : Type} `{Countable B} (chunkSize : nat)
    (originalMethod : list A → JsVal B) (arg : list A) : JsVal B * list (list A) :=
  Chunked chunkSize (Some flatten) originalMethod arg.

(** For a [Set] argument the method receives the elements in iteration
    order. *)
Definition ChunkedSet {A B : Type} `{Countable A} `{Countable B} (chunkSize : nat)
    (originalMethod : list A → JsVal B) (arg : gset A) : JsVal B * list (list A) :=
  Chunked chunkSize (Some setUnion) originalMethod (elements arg).

End Chunking.

(** ** infra.utils: [searchAssetBuilder] *)

Module SearchBuilder.

(** TypeORM find operators; a plain value in a where-object is an equality
    predicate. *)
Inductive FindOperator : Type :=
| Between (from to : Z)
| MoreThanOrEqual (from : Z)
| LessThanOrEqual (to : Z)
| Equal (v : Js.Value)
| NotIsNull.

(** [OptionalBetween(from, to)]; dates are instants, and a [Date] object is
    always truthy. *)
Definition OptionalBetween (from to : option Z) : option FindOperator :=
  match from, to with
  | Some f, Some t => Some (Between f t)
  | Some f, None => Some (MoreThanOrEqual f)
  | None, Some t => Some (LessThanOrEqual t)
  | None, None => None
  end.

Record SearchDateOptions : Type := {
  createdBefore : option Z;
  createdAfter : option Z;
  takenBefore : option Z;
  takenAfter : option Z;
  trashedBefore : option Z;
  trashedAfter : option Z;
  updatedBefore : option Z;
  updatedAfter : option Z
}.

Record SearchIDOptions : Type := {
  checksum : option string;
  deviceAssetId : option string;
  deviceId : option string;
  id : option string;
  libraryId : option string;
  ownerId : option string
}.

Record SearchStatusOptions : Type := {
  isArchived : option bool;
  isEncoded : option bool;
  isExternal : option bool;
  isFavorite : option bool;
  isMotion : option bool;
  isOffline : option bool;
  isReadOnly : option bool;
  isVisible : option bool;
  type : option string;
  withArchived : option bool;
  withDeleted : option bool
}.

Record SearchRelationOptions : Type := {
  withExif : option bool;
  withSmartInfo : option bool;
  withFaces : option bool;
  withPeople : option bool;
  withStacked : option bool
}.

Record SearchPathOptions : Type := {
  encodedVideoPath : option string;
  originalFileName : option string;
  originalPath : option string;
  resizePath : option string;
  webpPath : option string
}.

Record SearchExifOptions : Type := {
  city : option string;
  country : option string;
  lensModel : option string;
  make : option string;
  model : option string;
  state : option string
}.

Record AssetSearchBuilderOptions : Type := {
  date : option SearchDateOptions;
  idOptions : option SearchIDOptions;
  exif : option SearchExifOptions;
  path : option SearchPathOptions;
  relation : option SearchRelationOptions;
  status : option SearchStatusOptions
}.

(** A where-object: the keys of the object literal with their operators. *)
Definition WhereObject : Type := list (string * FindOperator).

(** [_.omitBy(object, _.isUndefined)]. *)
Definition omitUndefined (object : list (string * option FindOperator)) : WhereObject :=
  omap (λ kv, match kv.2 with Some op => Some (kv.1, op) | None => None end) object.

Definition str (v : option string) : option FindOperator :=
  match v with Some s => Some (Equal (Js.VStr s)) | None => None end.

Definition flag (v : option bool) : option FindOperator :=
  match v with Some b => Some (Equal (Js.VBool b)) | None => None end.

(** [leftJoin(`${parentAlias}.${relation}`, aliasName)] and
    [leftJoinAndSelect] of the same arguments. *)
Inductive Join : Type :=
| LeftJoin (parentAlias relation aliasName : string)
| LeftJoinAndSelect (parentAlias relation aliasName : string).

(** The relation a join follows. *)
Definition joinRelation (j : Join) : string :=
  match j with
  | LeftJoin _ relation _ => relation
  | LeftJoinAndSelect _ relation _ => relation
  end.

(** The state of a [SelectQueryBuilder] that [searchAssetBuilder] reads and
    changes.  [columns] and [relations] are the property names the metadata
    of the queried entity has for its columns and for its relations. *)
Record SelectQueryBuilder : Type := {
  alias : string;
  columns : list string;
  relations : list string;
  wheres : list WhereObject;
  joins : list Join;
  includesDeleted : bool
}.

(** [repository.createQueryBuilder(aliasName)] for an entity with the given
    columns and relations. *)
Definition createQueryBuilder (columns relations : list string) (aliasName : string)
  : SelectQueryBuilder :=
  {| alias := aliasName; columns := columns; relations := relations;
     wheres := []; joins := []; includesDeleted := false |}.

Definition isColumn (b : SelectQueryBuilder) (propertyPath : string) : bool :=
  existsb (String.eqb propertyPath) (columns b).

Definition isRelation (b : SelectQueryBuilder) (propertyPath : string) : bool :=
  existsb (String.eqb propertyPath) (relations b).

(** Every key of the where-object is a column of the entity. *)
Definition keysFound (b : SelectQueryBuilder) (w : WhereObject) : bool :=
  forallb (λ kv, isColumn b kv.1) w.

Definition addWheres (ws : list WhereObject) (b : SelectQueryBuilder)
  : SelectQueryBuilder :=
  {| alias := alias b; columns := columns b; relations := relations b;
     wheres := wheres b ++ ws; joins := joins b;
     includesDeleted := includesDeleted b |}.

Definition addJoins (js : list Join) (b : SelectQueryBuilder) : SelectQueryBuilder :=
  {| alias := alias b; columns := columns b; relations := relations b;
     wheres := wheres b; joins := joins b ++ js;
     includesDeleted := includesDeleted b |}.

Definition setWithDeleted (b : SelectQueryBuilder) : SelectQueryBuilder :=
  {| alias := alias b; columns := columns b; relations := relations b;
     wheres := wheres b; joins := joins b;
     includesDeleted := true |}.

(** [builder.andWhere(object)]: the builder looks every key up in the
    metadata of the entity and throws [EntityPropertyNotFoundError] for a
    key that is not there; the object is then not added. *)
Definition andWhere (w : WhereObject) : M SelectQueryBuilder unit :=
  λ b,
    if keysFound b w then (Returned tt, addWheres [w] b)
    else (Threw EntityPropertyNotFound, b).

(** A join is noted before the relation is looked up in the metadata; the
    builder throws when the entity has no such relation. *)
Definition join (j : Join) : M SelectQueryBuilder unit :=
  λ b,
    if isRelation b (joinRelation j) then (Returned tt, addJoins [j] b)
    else (Threw RelationNotFound, addJoins [j] b).

Definition leftJoin (parentAlias relation aliasName : string)
  : M SelectQueryBuilder unit :=
  join (LeftJoin parentAlias relation aliasName).

Definition leftJoinAndSelect (parentAlias relation aliasName : string)
  : M SelectQueryBuilder unit :=
  join (LeftJoinAndSelect parentAlias relation aliasName).

(** [builder.withDeleted()]. *)
Definition builderWithDeleted : M SelectQueryBuilder unit := modify setWithDeleted.

(** [if (c) { f }]. *)
Definition when {S : Type} (c : bool) (f : M S unit) : M S unit :=
  if c then f else ret tt.

Definition dateWhere (d : SearchDateOptions) : WhereObject :=
  omitUndefined
    [ ("createdAt", OptionalBetween (createdAfter d) (createdBefore d));
      ("updatedAt", OptionalBetween (updatedAfter d) (updatedBefore d));
      ("deletedAt", OptionalBetween (trashedAfter d) (trashedBefore d));
      ("fileCreatedAt", OptionalBetween (takenAfter d) (takenBefore d)) ].

Definition exifWhere (e : SearchExifOptions) : WhereObject :=
  omitUndefined
    [ ("city", str (city e)); ("country", str (country e));
      ("lensModel", str (lensModel e)); ("make", str (make e));
      ("model", str (model e)); ("state", str (state e)) ].

Definition idWhere (i : SearchIDOptions) : WhereObject :=
  omitUndefined
    [ ("checksum", str (checksum i)); ("deviceAssetId", str (deviceAssetId i));
      ("deviceId", str (deviceId i)); ("id", str (id i));
      ("libraryId", str (libraryId i)); ("ownerId", str (ownerId i)) ].

Definition pathWhere (p : SearchPathOptions) : WhereObject :=
  omitUndefined
    [ ("encodedVideoPath", str (encodedVideoPath p));
      ("originalFileName", str (originalFileName p));
      ("originalPath", str (originalPath p));
      ("resizePath", str (resizePath p));
      ("webpPath", str (webpPath p)) ].

(** [otherStatuses]: the status object without [isEncoded] and [isMotion]. *)
Definition otherStatusesWhere (s : SearchStatusOptions) : WhereObject :=
  omitUndefined
    [ ("isArchived", flag (isArchived s)); ("isExternal", flag (isExternal s));
      ("isFavorite", flag (isFavorite s)); ("isOffline", flag (isOffline s));
      ("isReadOnly", flag (isReadOnly s)); ("isVisible", flag (isVisible s));
      ("type", str (type s)); ("withArchived", flag (withArchived s));
      ("withDeleted", flag (withDeleted s)) ].

Definition encodedNotNull : WhereObject := [("encodedVideoPath", NotIsNull)].
Definition motionNotNull : WhereObject := [("livePhotoVideoId", NotIsNull)].

(** [path?.encodedVideoPath]. *)
Definition pathEncodedVideoPath (o : AssetSearchBuilderOptions) : option string :=
  match path o with Some p => encodedVideoPath p | None => None end.

(** [isEncoded && !path?.encodedVideoPath]. *)
Definition encodedWanted (o : AssetSearchBuilderOptions) (s : SearchStatusOptions)
  : bool :=
  Js.truthyFlag (isEncoded s) && negb (Js.truthyString (pathEncodedVideoPath o)).

Definition applyDate (o : AssetSearchBuilderOptions) : M SelectQueryBuilder unit :=
  match date o with
  | Some d => andWhere (dateWhere d)
  | None => ret tt
  end.

Definition applyExif (o : AssetSearchBuilderOptions) : M SelectQueryBuilder unit :=
  match exif o with
  | Some e =>
      let exifWhere := exifWhere e in
      run andWhere exifWhere in
      when (0 <? length exifWhere)
        (let* aliasName := gets alias in leftJoin aliasName "exifInfo" "exifInfo")
  | None => ret tt
  end.

Definition applyId (o : AssetSearchBuilderOptions) : M SelectQueryBuilder unit :=
  match idOptions o with
  | Some i => andWhere (idWhere i)
  | None => ret tt
  end.

Definition applyPath (o : AssetSearchBuilderOptions) : M SelectQueryBuilder unit :=
  match path o with
  | Some p => andWhere (pathWhere p)
  | None => ret tt
  end.

Definition applyStatus (o : AssetSearchBuilderOptions) : M SelectQueryBuilder unit :=
  match status o with
  | Some s =>
      run andWhere (otherStatusesWhere s) in
      run when (encodedWanted o s) (andWhere encodedNotNull) in
      when (Js.truthyFlag (isMotion s)) (andWhere motionNotNull)
  | None => ret tt
  end.

Definition applyRelation (o : AssetSearchBuilderOptions) : M SelectQueryBuilder unit :=
  match relation o with
  | Some r =>
      let* aliasName := gets alias in
      run when (Js.truthyFlag (withExif r))
            (leftJoinAndSelect aliasName "exifInfo" "exifInfo") in
      run when (Js.truthyFlag (withFaces r) || Js.truthyFlag (withPeople r))
            (leftJoinAndSelect aliasName "faces" "faces") in
      run when (Js.truthyFlag (withPeople r))
            (leftJoinAndSelect aliasName "person" "person") in
      run when (Js.truthyFlag (withSmartInfo r))
            (leftJoinAndSelect aliasName "smartInfo" "smartInfo") in
      when (Js.truthyFlag (withStacked r))
        (leftJoinAndSelect aliasName "stack" "stack")
  | None => ret tt
  end.

(** [status?.withDeleted]. *)
Definition statusWithDeleted (o : AssetSearchBuilderOptions) : option bool :=
  match status o with Some s => withDeleted s | None => None end.

(** [date?.trashedAfter]. *)
Definition dateTrashedAfter (o : AssetSearchBuilderOptions) : option Z :=
  match date o with Some d => trashedAfter d | None => None end.

(** [date?.trashedBefore]. *)
Definition dateTrashedBefore (o : AssetSearchBuilderOptions) : option Z :=
  match date o with Some d => trashedBefore d | None => None end.

(** [status?.withDeleted ?? (date?.trashedAfter !== undefined ||
    date?.trashedBefore !== undefined)]. *)
Definition withDeletedOf (o : AssetSearchBuilderOptions) : bool :=
  match statusWithDeleted o with
  | Some v => v
  | None =>
      bool_decide (is_Some (dateTrashedAfter o))
      || bool_decide (is_Some (dateTrashedBefore o))
  end.

(** [searchAssetBuilder(builder, options)].  The builder is changed in
    place and is what the function returns; the second component is the
    builder as the call leaves it, also when it throws. *)
Definition searchAssetBuilder (builder : SelectQueryBuilder)
    (options : AssetSearchBuilderOptions) : Exc unit * SelectQueryBuilder :=
  (run applyDate options in
   run applyExif options in
   run applyId options in
   run applyPath options in
   run applyStatus options in
   run applyRelation options in
   when (withDeletedOf options) builderWithDeleted) builder.

(** The where-objects each block of [searchAssetBuilder] hands to the
    builder for the options. *)
Definition dateWheres (o : AssetSearchBuilderOptions) : list WhereObject :=
  match date o with Some d => [dateWhere d] | None => [] end.

Definition exifWheres (o : AssetSearchBuilderOptions) : list WhereObject :=
  match exif o with Some e => [exifWhere e] | None => [] end.

Definition idWheres (o : AssetSearchBuilderOptions) : list WhereObject :=
  match idOptions o with Some i => [idWhere i] | None => [] end.

Definition pathWheres (o : AssetSearchBuilderOptions) : list WhereObject :=
  match path o with Some p => [pathWhere p] | None => [] end.

Definition statusWheres (o : AssetSearchBuilderOptions) : list WhereObject :=
  match status o with
  | Some s =>
      [otherStatusesWhere s]
      ++ (if encodedWanted o s then [encodedNotNull] else [])
      ++ (if Js.truthyFlag (isMotion s) then [motionNotNull] else [])
  | None => []
  end.

(** All of them, in the order of the calls. *)
Definition whereObjects (o : AssetSearchBuilderOptions) : list WhereObject :=
  dateWheres o ++ exifWheres o ++ idWheres o ++ pathWheres o ++ statusWheres o.

(** The join the exif filter asks for. *)
Definition exifJoins (aliasName : string) (o : AssetSearchBuilderOptions) : list Join :=
  match exif o with
  | Some e =>
      if 0 <? length (exifWhere e) then [LeftJoin aliasName "exifInfo" "exifInfo"] else []
  | None => []
  end.

(** The joins the relation options ask for, in the order of the calls. *)
Definition relationJoins (aliasName : string) (o : AssetSearchBuilderOptions)
  : list Join :=
  match relation o with
  | Some r =>
      (if Js.truthyFlag (withExif r)
       then [LeftJoinAndSelect aliasName "exifInfo" "exifInfo"] else [])
      ++ (if Js.truthyFlag (withFaces r) || Js.truthyFlag (withPeople r)
          then [LeftJoinAndSelect aliasName "faces" "faces"] else [])
      ++ (if Js.truthyFlag (withPeople r)
          then [LeftJoinAndSelect aliasName "person" "person"] else [])
      ++ (if Js.truthyFlag (withSmartInfo r)
          then [LeftJoinAndSelect aliasName "smartInfo" "smartInfo"] else [])
      ++ (if Js.truthyFlag (withStacked r)
          then [LeftJoinAndSelect aliasName "stack" "stack"] else [])
  | None => []
  end.

(** The builder finds every key and every relation the options make
    [searchAssetBuilder] ask for. *)
Definition accepted (b : SelectQueryBuilder) (o : AssetSearchBuilderOptions) : bool :=
  forallb (keysFound b) (whereObjects o)
  && forallb (λ j, isRelation b (joinRelation j))
       (exifJoins (alias b) o ++ relationJoins (alias b) o).

(** The builder [searchAssetBuilder] leaves when everything is found. *)
Definition extended (b : SelectQueryBuilder) (o : AssetSearchBuilderOptions)
  : SelectQueryBuilder :=
  {| alias := alias b; columns := columns b; relations := relations b;
     wheres := wheres b ++ whereObjects o;
     joins := joins b ++ exifJoins (alias b) o ++ relationJoins (alias b) o;
     includesDeleted := includesDeleted b || withDeletedOf o |}.

(** A step of the builder that does not wait, and leaves the metadata and
    the switch for soft-deleted rows as they are. *)
Definition quiet {A : Type} (c : M SelectQueryBuilder A) : Prop :=
  ∀ b,
    (c b).1 ≠ Pending
    ∧ columns (c b).2 = columns b
    ∧ includesDeleted (c b).2 = includesDeleted b.

(** A step that only adds to the builder: the alias stays, the
    where-objects and joins it had stay in front, and the switch for
    soft-deleted rows is not taken back. *)
Definition grows {A : Type} (c : M SelectQueryBuilder A) : Prop :=
  ∀ b,
    alias (c b).2 = alias b
    ∧ (∃ ws, wheres (c b).2 = wheres b ++ ws)
    ∧ (∃ js, joins (c b).2 = joins b ++ js)
    ∧ (includesDeleted b = true → includesDeleted (c b).2 = true).

(** The number of "is not null" predicates on [field] in the where-objects
    of a builder. *)
Definition isNotNullOn (field : string) (kv : string * FindOperator) : bool :=
  String.eqb kv.1 field
  && match kv.2 with NotIsNull => true | _ => false end.

Definition notNullCount (field : string) (ws : list WhereObject) : nat :=
  length (List.filter (isNotNullOn field) (concat ws)).

(** An entry of an object literal that is absent, a comparison or an
    equality. *)
Definition plain (kv : string * option FindOperator) : Prop :=
  kv.2 ≠ Some NotIsNull.


(** The alias a join is made under. *)
Definition joinAlias (j : Join) : string :=
  match j with
  | LeftJoin _ _ aliasName => aliasName
  | LeftJoinAndSelect _ _ aliasName => aliasName
  end.

(** The number of joins made under [aliasName]. *)
Definition joinCount (aliasName : string) (js : list Join) : nat :=
  length (List.filter (λ j, String.eqb (joinAlias j) aliasName) js).


End SearchBuilder.

(** ** domain: versions, extensions and locks *)

Module Domain.

Record Version : Type := {
  major : Z;
  minor : Z;
  patch : Z
}.

(** The precision of a comparison; [VersionType[type + 1]] names the next
    finer one. *)
Inductive VersionType : Type :=
| MAJOR
| MINOR
| PATCH.

(** Modelled from the spec: the [Version] class of domain.constant is not
    among the sources.  Versions are "totally ordered", and the "pin
    precision" is "the field (major/minor/patch) up to which an installed
    version must exactly match": the comparison reads the fields from
    [major] down to the given precision and stops at the first difference. *)
Definition compare (a b : Version) (precision : VersionType) : comparison :=
  match Z.compare (major a) (major b), precision with
  | Eq, MAJOR => Eq
  | Eq, _ =>
      match Z.compare (minor a) (minor b), precision with
      | Eq, MINOR => Eq
      | Eq, _ => Z.compare (patch a) (patch b)
      | c, _ => c
      end
  | c, _ => c
  end.

(** Modelled from the spec: [version.isOlderThan(other, precision = PATCH)]. *)
Definition isOlderThan (a b : Version) (precision : VersionType) : bool :=
  match compare a b precision with Lt => true | _ => false end.

(** Modelled from the spec: [version.isNewerThan(other, precision = PATCH)]. *)
Definition isNewerThan (a b : Version) (precision : VersionType) : bool :=
  match compare a b precision with Gt => true | _ => false end.

(** The version of an unreleased build. *)
Definition version000 : Version := {| major := 0; minor := 0; patch := 0 |}.

Inductive DatabaseExtension : Type :=
| CUBE
| EARTH_DISTANCE
| VECTOR
| VECTORS.

Definition isVECTOR (e : DatabaseExtension) : bool :=
  match e with VECTOR => true | _ => false end.

Definition isVECTORS (e : DatabaseExtension) : bool :=
  match e with VECTORS => true | _ => false end.

Inductive DatabaseLock : Type :=
| GeodataImport
| StorageTemplateMigration
| CLIPDimSize.

(** The numeric value of the enum member: the advisory lock key. *)
Definition lockId (l : DatabaseLock) : Z :=
  match l with
  | GeodataImport => 100
  | StorageTemplateMigration => 420
  | CLIPDimSize => 512
  end.

(** [DatabaseLock[lock]]: the name of the member, the key of the
    process-local lock. *)
Definition lockName (l : DatabaseLock) : string :=
  match l with
  | GeodataImport => "GeodataImport"
  | StorageTemplateMigration => "StorageTemplateMigration"
  | CLIPDimSize => "CLIPDimSize"
  end.

End Domain.

(** ** database.service: the start-up sequence *)

Module DatabaseService.
Import Domain.

Record Service : Type := {
  minPostgresVersion : Z;
  minVectorsVersion : Version;
  maxVectorsVersion : Version + VersionType;
  minVectorVersion : Version;
  maxVectorVersion : Version + VersionType
}.

(** The field initialisers of the class. *)
Definition service : Service :=
  {| minPostgresVersion := 14;
     minVectorsVersion := {| major := 0; minor := 0; patch := 0 |};
     maxVectorsVersion := inr MINOR;
     minVectorVersion := {| major := 0; minor := 5; patch := 0 |};
     maxVectorVersion := inr MAJOR |}.

Inductive LogLevel : Type :=
| Fatal
| Warn.

(** The database server as the service sees it through the repository,
    with the log of the service.  [extversion] is what
    [getExtensionVersion] returns and [availableVersion] what
    [getAvailableExtensionVersion] returns, for the configured extension. *)
Record Database : Type := {
  postgresVersion : Version;
  extversion : option Version;
  availableVersion : option Version;
  createExtensionFails : bool;
  migrationsRun : nat;
  logged : list LogLevel
}.

Definition setExtversion (v : option Version) (d : Database) : Database :=
  {| postgresVersion := postgresVersion d; extversion := v;
     availableVersion := availableVersion d;
     createExtensionFails := createExtensionFails d;
     migrationsRun := migrationsRun d; logged := logged d |}.

Definition log (l : LogLevel) (d : Database) : Database :=
  {| postgresVersion := postgresVersion d; extversion := extversion d;
     availableVersion := availableVersion d;
     createExtensionFails := createExtensionFails d;
     migrationsRun := migrationsRun d; logged := logged d ++ [l] |}.

(** [databaseRepository.runMigrations()]: the run is counted; the
    migrations themselves are not part of the model. *)
Definition runMigrations : M Database unit :=
  modify (λ d,
    {| postgresVersion := postgresVersion d; extversion := extversion d;
       availableVersion := availableVersion d;
       createExtensionFails := createExtensionFails d;
       migrationsRun := S (migrationsRun d); logged := logged d |}).

(** [databaseRepository.createExtension(extension)] as the service sees
    it: [CREATE EXTENSION IF NOT EXISTS] keeps an installed extension and
    installs the available version otherwise. *)
Definition createExtension : M Database unit :=
  let* fails := gets createExtensionFails in
  if fails : bool then throw (QueryFailed "CREATE EXTENSION")
  else
    modify (λ d,
      match extversion d with
      | Some _ => d
      | None => setExtversion (availableVersion d) d
      end).

(** Modelled from the spec: [updateExtension] is not among the sources; the
    step is "best-effort: if a newer compatible extension version is
    available, attempt an upgrade".  The call is not awaited. *)
Definition updateExtension (availableVersion : Version) : M Database unit :=
  modify (setExtversion (Some availableVersion)).

Definition assertPostgresql (svc : Service) : M Database unit :=
  let* v := gets postgresVersion in
  if (major v <? minPostgresVersion svc)%Z
  then throw (PostgresTooOld (major v) (minPostgresVersion svc))
  else ret tt.

Definition createVectorExtension : M Database unit :=
  λ d,
    match createExtension d with
    | (Threw err, d') => (Threw err, log Fatal d')
    | r => r
    end.

Definition updateVectorExtension : M Database unit :=
  let* version := gets extversion in
  let* availableVersion := gets availableVersion in
  match version, availableVersion with
  | Some version, Some availableVersion =>
      if isNewerThan availableVersion version PATCH
      then updateExtension availableVersion
      else ret tt
  | _, _ => throw ExtensionNotInstalled
  end.

(** [assertVectorExtension()].  The check of version 0.0.0 is commented out
    in the source and has no counterpart here. *)
Definition assertVectorExtension (svc : Service) (vectorExtension : DatabaseExtension)
  : M Database unit :=
  let* version := gets extversion in
  match version with
  | None => throw ExtensionNotInstalled
  | Some version =>
      let minVersion :=
        if isVECTOR vectorExtension then minVectorVersion svc
        else minVectorsVersion svc in
      let maxVersion :=
        if isVECTOR vectorExtension then maxVectorVersion svc
        else maxVectorsVersion svc in
      match maxVersion with
      | inl maxVersion =>
          if isNewerThan version maxVersion PATCH
          then run modify (log Fatal) in throw ExtensionVersionRejected
          else ret tt
      | inr maxVersion =>
          if isOlderThan version minVersion PATCH
             || isNewerThan version minVersion maxVersion
          then run modify (log Fatal) in throw ExtensionVersionRejected
          else ret tt
      end
  end.

Definition init (svc : Service) (vectorExtension : DatabaseExtension)
  : M Database unit :=
  run assertPostgresql svc in
  run createVectorExtension in
  run updateVectorExtension in
  run assertVectorExtension svc vectorExtension in
  runMigrations.

End DatabaseService.

(** ** database.repository: dimension change and locks *)

Module DatabaseRepository.
Import Domain.

Inductive Statement : Type :=
| SetPgvectorCompatibility
| DropSmartSearch
| CreateSmartSearch (extension : DatabaseExtension) (dimSize : Js.number)
| CreateClipIndex.

(** The calls [withLock] awaits on its query runner. *)
Inductive RunnerCall : Type :=
| PgAdvisoryLock
| PgAdvisoryUnlock
| ReleaseRunner.

(** The data source, the process-local [AsyncLock] and, in [world], what
    the callbacks of [withLock] work on.  [rejected] tells which calls on
    a query runner the database rejects; a rejected call has no effect and
    the session lives on. *)
Record Repository (W : Type) : Type := {
  atttypmod : option Js.number;
  executed : list Statement;
  asyncLock : gset string;
  advisoryLocks : list (Z * nat);
  queryRunners : list nat;
  nextQueryRunner : nat;
  rejected : RunnerCall → bool;
  world : W
}.
Arguments atttypmod {W} _.
Arguments executed {W} _.
Arguments asyncLock {W} _.
Arguments advisoryLocks {W} _.
Arguments queryRunners {W} _.
Arguments nextQueryRunner {W} _.
Arguments rejected {W} _.
Arguments world {W} _.

Section Updates.
Context {W : Type}.

Definition setSchema (dim : option Js.number) (stmts : list Statement)
    (r : Repository W) : Repository W :=
  {| atttypmod := dim; executed := executed r ++ stmts;
     asyncLock := asyncLock r; advisoryLocks := advisoryLocks r;
     queryRunners := queryRunners r; nextQueryRunner := nextQueryRunner r;
     rejected := rejected r; world := world r |}.

Definition setAsyncLock (q : gset string) (r : Repository W) : Repository W :=
  {| atttypmod := atttypmod r; executed := executed r;
     asyncLock := q; advisoryLocks := advisoryLocks r;
     queryRunners := queryRunners r; nextQueryRunner := nextQueryRunner r;
     rejected := rejected r; world := world r |}.

Definition setAdvisoryLocks (l : list (Z * nat)) (r : Repository W) : Repository W :=
  {| atttypmod := atttypmod r; executed := executed r;
     asyncLock := asyncLock r; advisoryLocks := l;
     queryRunners := queryRunners r; nextQueryRunner := nextQueryRunner r;
     rejected := rejected r; world := world r |}.

Definition setQueryRunners (l : list nat) (next : nat) (r : Repository W)
  : Repository W :=
  {| atttypmod := atttypmod r; executed := executed r;
     asyncLock := asyncLock r; advisoryLocks := advisoryLocks r;
     queryRunners := l; nextQueryRunner := next;
     rejected := rejected r; world := world r |}.

Definition setWorld (w : W) (r : Repository W) : Repository W :=
  {| atttypmod := atttypmod r; executed := executed r;
     asyncLock := asyncLock r; advisoryLocks := advisoryLocks r;
     queryRunners := queryRunners r; nextQueryRunner := nextQueryRunner r;
     rejected := rejected r; world := w |}.

Definition clipDimOptions : InfraUtils.IntegerOptions :=
  {| InfraUtils.opt_min := Some 1%Z; InfraUtils.opt_max := Some (2 ^ 16)%Z |}.

(** [getCLIPDimSize()]: [res[0]] is undefined when the catalog has no such
    column. *)
Definition getCLIPDimSize : M (Repository W) Js.number :=
  let* res := gets atttypmod in
  match res with
  | None => throw TypeError
  | Some dimSize =>
      if negb (InfraUtils.isValidInteger dimSize clipDimOptions)
      then throw CouldNotRetrieveCLIPDimSize
      else ret dimSize
  end.

(** The statements of [createCLIPIndex(manager)]. *)
Definition createCLIPIndex (vectorExtension : DatabaseExtension) : list Statement :=
  (if isVECTORS vectorExtension then [SetPgvectorCompatibility] else [])
  ++ [CreateClipIndex].

(** [updateCLIPDimSize(dimSize)].  The validation and the comparison with
    the current dimension are as in the source.  The change of dimension
    is given as it goes when the database accepts every statement: the
    transaction drops and recreates the table, and the statements of
    [createCLIPIndex], which is called without [await], follow. *)
Definition updateCLIPDimSize (vectorExtension : DatabaseExtension)
    (dimSize : Js.number) : M (Repository W) unit :=
  if negb (InfraUtils.isValidInteger dimSize clipDimOptions)
  then throw (InvalidCLIPDimSize dimSize)
  else
    let* curDimSize := getCLIPDimSize in
    if Js.strictEq curDimSize dimSize then ret tt
    else
      modify (setSchema (Some dimSize)
                ([DropSmartSearch; CreateSmartSearch vectorExtension dimSize]
                 ++ createCLIPIndex vectorExtension)).

(** [asyncLock.isBusy(key)]. *)
Definition isBusy (lock : DatabaseLock) (r : Repository W) : bool :=
  bool_decide (lockName lock ∈ asyncLock r).

(** Whether some session holds the advisory lock of [lock]. *)
Definition advisoryHeld (lock : DatabaseLock) (r : Repository W) : bool :=
  existsb (λ e, (e.1 =? lockId lock)%Z) (advisoryLocks r).

(** [asyncLock.acquire(key, fn)]: waits while the key is taken; otherwise
    takes it, runs [fn], and frees it when [fn] has returned or thrown. *)
Definition acquire {A : Type} (key : string) (fn : M (Repository W) A)
  : M (Repository W) A :=
  λ r,
    if bool_decide (key ∈ asyncLock r) then (Pending, r)
    else
      match fn (setAsyncLock ({[key]} ∪ asyncLock r) r) with
      | (Pending, r') => (Pending, r')
      | (res, r') => (res, setAsyncLock (asyncLock r' ∖ {[key]}) r')
      end.

(** [dataSource.createQueryRunner()]: a session of its own. *)
Definition createQueryRunner : M (Repository W) nat :=
  λ r,
    let qr := nextQueryRunner r in
    (Returned qr, setQueryRunners (qr :: queryRunners r) (S qr) r).

(** [queryRunner.release()]; a rejected call leaves the runner open. *)
Definition release (queryRunner : nat) : M (Repository W) unit :=
  λ r,
    if rejected r ReleaseRunner then (Threw (QueryFailed "release"), r)
    else
      (Returned tt,
       setQueryRunners (List.filter (λ q, negb (q =? queryRunner)) (queryRunners r))
         (nextQueryRunner r) r).

(** [SELECT pg_advisory_lock($1)]: waits while another session holds the
    key; a rejected statement takes no lock. *)
Definition acquireLock (lock : DatabaseLock) (queryRunner : nat)
  : M (Repository W) unit :=
  λ r,
    if existsb (λ e, (e.1 =? lockId lock)%Z && negb (e.2 =? queryRunner))
         (advisoryLocks r)
    then (Pending, r)
    else if rejected r PgAdvisoryLock
    then (Threw (QueryFailed "pg_advisory_lock"), r)
    else (Returned tt, setAdvisoryLocks ((lockId lock, queryRunner) :: advisoryLocks r) r).

Fixpoint unlockOnce (key : Z) (session : nat) (l : list (Z * nat)) : list (Z * nat) :=
  match l with
  | [] => []
  | e :: l' =>
      if (e.1 =? key)%Z && (e.2 =? session)
      then l'
      else e :: unlockOnce key session l'
  end.

(** [SELECT pg_advisory_unlock($1)]: gives up one hold of the session, if
    it has one; a rejected statement gives up none. *)
Definition releaseLock (lock : DatabaseLock) (queryRunner : nat)
  : M (Repository W) unit :=
  λ r,
    if rejected r PgAdvisoryUnlock
    then (Threw (QueryFailed "pg_advisory_unlock"), r)
    else
      (Returned tt,
       setAdvisoryLocks (unlockOnce (lockId lock) queryRunner (advisoryLocks r)) r).

(** A callback sees the repository and changes [world]. *)
Definition call {R : Type} (callback : Repository W → Exc R * W)
  : M (Repository W) R :=
  λ r, let '(res, w) := callback r in (res, setWorld w r).

(** [withLock(lock, callback)]. *)
Definition withLock {R : Type} (lock : DatabaseLock)
    (callback : Repository W → Exc R * W) : M (Repository W) R :=
  acquire (lockName lock)
    (let* queryRunner := createQueryRunner in
     tryFinally
       (run acquireLock lock queryRunner in call callback)
       (tryFinally (releaseLock lock queryRunner) (release queryRunner))).

(** The repository as the callback of [withLock] finds it: the
    process-local lock taken, a query runner open, and the advisory lock
    held by its session. *)
Definition entered (lock : DatabaseLock) (r : Repository W) : Repository W :=
  let queryRunner := nextQueryRunner r in
  setAdvisoryLocks ((lockId lock, queryRunner) :: advisoryLocks r)
    (setQueryRunners (queryRunner :: queryRunners r) (S queryRunner)
       (setAsyncLock ({[lockName lock]} ∪ asyncLock r) r)).

(** The state [withLock] leaves on a lock that was free: the process-local
    lock is free again; the world is what the callback made of it, if it
    ran; the session still holds the advisory lock if it took it and could
    not give it up; and the query runner is still open if it could not be
    released. *)
Definition left (lock : DatabaseLock) (w : W) (r : Repository W) : Repository W :=
  let queryRunner := nextQueryRunner r in
  let opened := queryRunner :: queryRunners r in
  setAdvisoryLocks
    (if negb (rejected r PgAdvisoryLock) && rejected r PgAdvisoryUnlock
     then (lockId lock, queryRunner) :: advisoryLocks r
     else advisoryLocks r)
    (setQueryRunners
       (if rejected r ReleaseRunner then opened
        else List.filter (λ q, negb (q =? queryRunner)) opened)
       (S queryRunner)
       (setWorld (if rejected r PgAdvisoryLock then world r else w) r)).


(** [wait(lock)]: the process-local lock is taken for a callback that does
    nothing. *)
Definition wait (lock : DatabaseLock) : M (Repository W) unit :=
  acquire (lockName lock) (ret tt).

End Updates.

End DatabaseRepository.

(** ** smart-info.repository: face search and upsert *)

Module SmartInfoRepository.

Definition Embedding : Type := list Q.

(** The columns of the asset that the face search reads: the owner, and
    the delete date of a soft-deleted asset. *)
Record AssetEntity : Type := {
  assetOwnerId : string;
  assetDeletedAt : option Z
}.

(** A row of [asset_faces]: its own columns by property name, and the
    asset reached through [faces.asset]. *)
Record AssetFaceEntity : Type := {
  ownColumns : list (string * Js.Value);
  asset : option AssetEntity
}.

Definition column (name : string) (f : AssetFaceEntity) : Js.Value :=
  match List.find (λ kv, String.eqb kv.1 name) (ownColumns f) with
  | Some kv => kv.2
  | None => Js.VNull
  end.

Definition faceEmbedding (f : AssetFaceEntity) : Embedding :=
  match column "embedding" f with
  | Js.VVec v => v
  | _ => []
  end.

Definition isNotNull (v : Js.Value) : bool :=
  match v with Js.VNull => false | _ => true end.

(** [this.faceColumns]: the property names of the own columns, without
    the embedding. *)
Definition faceColumns (ownColumnNames : list string) : list string :=
  List.filter (λ propertyName, negb (String.eqb propertyName "embedding")) ownColumnNames.

Record FaceEmbeddingSearch : Type := {
  userIds : list string;
  embedding : Embedding;
  numResults : option Js.number;
  maxDistance : option Q;
  hasPerson : option bool
}.

Record FaceSearchResult : Type := {
  face : list (string * Js.Value);
  distance : Q
}.

Inductive RuntimeConfig : Type :=
| EnablePrefilter
| SearchModeBasic
| HnswEfSearch (limit : Z).

(** [ORDER BY key] ascending, as a stable insertion sort. *)
Fixpoint insertBy {A : Type} (key : A → Q) (x : A) (l : list A) : list A :=
  match l with
  | [] => [x]
  | y :: l' =>
      if Qle_bool (key x) (key y) then x :: y :: l'
      else y :: insertBy key x l'
  end.

Definition orderBy {A : Type} (key : A → Q) (l : list A) : list A :=
  foldr (insertBy key) [] l.

(** [x] comes before [y] in ascending order of [key]. *)
Definition ascending {A : Type} (key : A → Q) (x y : A) : Prop :=
  (key x <= key y)%Q.

(** [numResults] as the source tests it: [if (numResults)]. *)
Definition numResultsGiven (numResults : option Js.number) : option Js.number :=
  match numResults with
  | Some n => if Js.truthy n then Some n else None
  | None => None
  end.

(** The result of the validation of [numResults]: the limit of the
    candidate query, if there is one. *)
Definition candidateLimit (numResults : option Js.number) : Exc (option Z) :=
  match numResultsGiven numResults with
  | Some n =>
      if negb (InfraUtils.isValidInteger n
                 {| InfraUtils.opt_min := Some 1%Z; InfraUtils.opt_max := None |})
      then Threw (InvalidNumResults n)
      else Returned (Some (Z.max (Js.toZ n) 64))
  | None => Returned None
  end.

(** The common table expression: the faces of the owners, optionally only
    those with a person, closest first, cut at the limit.  A face joins
    its asset only if the asset is not soft-deleted: the builder puts the
    condition on the delete date of a joined entity into the join. *)
Definition candidates (distanceTo : Embedding → Embedding → Q)
    (faces : list AssetFaceEntity) (s : FaceEmbeddingSearch) (limit : option Z)
  : list AssetFaceEntity :=
  let owned :=
    List.filter
      (λ f, match asset f with
            | Some a =>
                bool_decide (assetDeletedAt a = None)
                && bool_decide (assetOwnerId a ∈ userIds s)
            | None => false
            end) faces in
  let linked :=
    if Js.truthyFlag (hasPerson s)
    then List.filter (λ f, isNotNull (column "personId" f)) owned
    else owned in
  let ranked := orderBy (λ f, distanceTo (faceEmbedding f) (embedding s)) linked in
  match limit with
  | Some n => firstn (Z.to_nat n) ranked
  | None => ranked
  end.

(** [res.distance <= :maxDistance]; a comparison with an absent bound
    selects nothing. *)
Definition withinDistance (maxDistance : option Q) (d : Q) : bool :=
  match maxDistance with
  | Some m => Qle_bool d m
  | None => false
  end.

(** [searchFaces(search)].  [distanceTo] is the operator [<=>] of the
    extension and [ownColumnNames] the metadata of the entity.  The second
    component is the runtime configuration sent to the session.  With no
    user id the list of [IN (:...userIds)] is empty, which the database
    refuses as a syntax error when the search is sent. *)
Definition searchFaces (distanceTo : Embedding → Embedding → Q)
    (ownColumnNames : list string) (faces : list AssetFaceEntity)
    (s : FaceEmbeddingSearch)
  : Exc (list FaceSearchResult) * list RuntimeConfig :=
  match candidateLimit (numResults s) with
  | Threw e => (Threw e, [])
  | Pending => (Pending, [])
  | Returned limit =>
      let runtimeConfig :=
        [EnablePrefilter; SearchModeBasic]
        ++ match limit with Some n => [HnswEfSearch n] | None => [] end in
      match userIds s with
      | [] => (Threw (QueryFailed "syntax error at or near )"), runtimeConfig)
      | _ :: _ =>
          let cte := candidates distanceTo faces s limit in
          let rows :=
            map (λ f,
                   {| face := map (λ col, (col, column col f)) (faceColumns ownColumnNames);
                      distance := distanceTo (faceEmbedding f) (embedding s) |})
                cte in
          (Returned (List.filter (λ row, withinDistance (maxDistance s) (distance row)) rows),
           runtimeConfig)
      end
  end.

(** The part of a [Partial<SmartInfoEntity>] the repository reads. *)
Record SmartInfoEntity : Type := {
  assetId : option string;
  tags : option (list string);
  objects : option (list string)
}.

(** The two tables: [smart_info], written through the ORM, and
    [smart_search] with one embedding per asset.  [smart_search] is the
    table [updateCLIPDimSize] creates: its [assetId] references [assets],
    whose ids are [assetIds], and its [embedding] is a vector of the width
    [dimSize], kept in single precision, to which [float4] rounds. *)
Record Tables (I : Type) : Type := {
  smart_info : I;
  assetIds : gset string;
  dimSize : nat;
  float4 : Q → Q;
  smart_search : gmap string Embedding
}.
Arguments smart_info {I} _.
Arguments assetIds {I} _.
Arguments dimSize {I} _.
Arguments float4 {I} _.
Arguments smart_search {I} _.

(** [upsertEmbedding(assetId, embedding)]: insert, or replace the row of
    the same [assetId].  The database refuses an asset id that is not in
    [assets] and an embedding that is empty or not of the width of the
    column. *)
Definition upsertEmbedding {I : Type} (assetId : string) (embedding : Embedding)
  : M (Tables I) unit :=
  λ t,
    if bool_decide (assetId ∈ assetIds t)
       && (0 <? length embedding) && (length embedding =? dimSize t)
    then
      (Returned tt,
       {| smart_info := smart_info t; assetIds := assetIds t; dimSize := dimSize t;
          float4 := float4 t;
          smart_search := <[assetId := map (float4 t) embedding]> (smart_search t) |})
    else (Threw (QueryFailed "smart_search"), t).

(** [this.repository.upsert(smartInfo, { conflictPaths: ['assetId'] })].
    [repositoryUpsert] is what the ORM and the database make of the
    statement; [assetId], the conflict path, is the key of the table, and
    a record without it is refused whatever else holds. *)
Definition upsertSmartInfo {I : Type} (repositoryUpsert : SmartInfoEntity → I → Exc I)
    (smartInfo : SmartInfoEntity) : M (Tables I) unit :=
  λ t,
    match repositoryUpsert smartInfo (smart_info t) with
    | Returned i =>
        match assetId smartInfo with
        | Some _ =>
            (Returned tt,
             {| smart_info := i; assetIds := assetIds t; dimSize := dimSize t;
                float4 := float4 t; smart_search := smart_search t |})
        | None => (Threw (QueryFailed "null value in column assetId"), t)
        end
    | Threw e => (Threw e, t)
    | Pending => (Pending, t)
    end.

(** [upsert(smartInfo, embedding)].  An empty array is truthy, an empty
    string is not. *)
Definition upsert {I : Type} (repositoryUpsert : SmartInfoEntity → I → Exc I)
    (smartInfo : SmartInfoEntity) (embedding : option Embedding)
  : M (Tables I) unit :=
  run upsertSmartInfo repositoryUpsert smartInfo in
  if negb (Js.truthyString (assetId smartInfo)) || negb (bool_decide (is_Some embedding))
  then ret tt
  else
    match assetId smartInfo, embedding with
    | Some assetId, Some embedding => upsertEmbedding assetId embedding
    | _, _ => ret tt
    end.

End SmartInfoRepository.

(** ** smart-info.repository: CLIP search *)

Module ClipSearch.
Import SmartInfoRepository.

(** A row of [assets] as [searchCLIP] reads it; [smartSearch] is the
    embedding reached through [a.smartSearch], absent for an asset without
    a row in [smart_search]. *)
Record AssetRow : Type := {
  ownerId : string;
  isArchived : bool;
  isVisible : bool;
  fileCreatedAt : Z;
  deletedAt : option Z;
  smartSearch : option Embedding
}.

Record EmbeddingSearch : Type := {
  userIds : list string;
  embedding : Embedding;
  numResults : option Js.number;
  withArchived : option bool
}.

(** The statements of a runtime configuration. *)
Inductive SessionSetting : Type :=
| VectorsEnablePrefilter
| VectorsSearchModeBasic
| VectorsHnswEfSearch (numResults : Js.number)
| HnswEfSearch1000.

(** [getRuntimeConfig(numResults)]. *)
Definition getRuntimeConfig (vectorExtension : Domain.DatabaseExtension)
    (numResults : option Js.number) : list SessionSetting :=
  if Domain.isVECTORS vectorExtension then
    [VectorsEnablePrefilter; VectorsSearchModeBasic]
    ++ match numResultsGiven numResults with
       | Some n => [VectorsHnswEfSearch n]
       | None => []
       end
  else if Domain.isVECTOR vectorExtension then [HnswEfSearch1000]
  else [].

Definition numResultsOptions : InfraUtils.IntegerOptions :=
  {| InfraUtils.opt_min := Some 1%Z; InfraUtils.opt_max := None |}.

(** [numResults != null && !isValidInteger(numResults, { min: 1 })]. *)
Definition refused (numResults : option Js.number) : option Js.number :=
  match numResults with
  | Some n => if negb (InfraUtils.isValidInteger n numResultsOptions) then Some n else None
  | None => None
  end.

Definition rowEmbedding (a : AssetRow) : Embedding := default [] (smartSearch a).

(** The assets the query selects, before ordering and limit.  The builder
    leaves soft-deleted rows of the queried entity out, since
    [withDeleted()] is not called. *)
Definition selected (now : Z) (assets : list AssetRow) (s : EmbeddingSearch)
  : list AssetRow :=
  let live := List.filter (λ a, bool_decide (deletedAt a = None)) assets in
  let joined := List.filter (λ a, bool_decide (is_Some (smartSearch a))) live in
  let owned := List.filter (λ a, bool_decide (ownerId a ∈ userIds s)) joined in
  let unarchived :=
    if negb (Js.truthyFlag (withArchived s))
    then List.filter (λ a, negb (isArchived a)) owned
    else owned in
  List.filter (λ a, isVisible a && (fileCreatedAt a <? now)%Z) unarchived.

(** [searchCLIP(search)].  [distanceTo] is the operator [<=>] of the
    extension and [now] the value of [NOW()].  The second component is the
    runtime configuration sent to the session.  With no user id the list
    of [IN (:...userIds)] is empty, which the database refuses as a syntax
    error when the search is sent. *)
Definition searchCLIP (distanceTo : Embedding → Embedding → Q)
    (vectorExtension : Domain.DatabaseExtension) (now : Z)
    (assets : list AssetRow) (s : EmbeddingSearch)
  : Exc (list AssetRow) * list SessionSetting :=
  match refused (numResults s) with
  | Some n => (Threw (InvalidNumResults n), [])
  | None =>
      match userIds s with
      | [] =>
          (Threw (QueryFailed "syntax error at or near )"),
           getRuntimeConfig vectorExtension (numResults s))
      | _ :: _ =>
          let ranked :=
            orderBy (λ a, distanceTo (rowEmbedding a) (embedding s))
              (selected now assets s) in
          let results :=
            match numResultsGiven (numResults s) with
            | Some n => firstn (Z.to_nat (Js.toZ n)) ranked
            | None => ranked
            end in
          (Returned results, getRuntimeConfig vectorExtension (numResults s))
      end
  end.

End ClipSearch.

(** ** The search page of the web client *)

Module SearchPage.

(** [url.searchParams.get(name)]: the first value of the name. *)
Definition get (name : string) (searchParams : list (string * string)) : option string :=
  match List.find (λ kv, String.eqb kv.1 name) searchParams with
  | Some kv => Some kv.2
  | None => None
  end.

(** [a || b] on optional strings. *)
Definition or (a b : option string) : option string :=
  if Js.truthyString a then a else b.

(** The assets of a response: the items and the other fields. *)
Record Assets (A O : Type) : Type := {
  items : list A;
  other : O
}.
Arguments items {A O} _.
Arguments other {A O} _.

Record SearchResponseDto (A O B : Type) : Type := {
  assets : Assets A O;
  albums : B
}.
Arguments assets {A O B} _.
Arguments albums {A O B} _.

Record PageData (A O B : Type) : Type := {
  term : option string;
  results : option (SearchResponseDto A O B);
  title : string
}.
Arguments term {A O B} _.
Arguments results {A O B} _.
Arguments title {A O B} _.

(** [load(data)].  [search] is [api.searchApi.search] with the search
    parameters, [previous] is [data.results?.assets.items], and the state
    counts the calls of the API. *)
Definition load {A O B : Type}
    (authenticate : Exc unit)
    (search : list (string * string) → Exc (SearchResponseDto A O B))
    (searchParams : list (string * string)) (previous : option (list A))
  : M nat (PageData A O B) :=
  let* _ := (λ calls, (authenticate, calls)) in
  let term := or (or (get "q" searchParams) (get "query" searchParams)) None in
  if Js.truthyString term then
    let* res := (λ calls, (search searchParams, S calls)) in
    let assetItems := previous in
    let assets :=
      {| items :=
           match assetItems with
           | Some l => l ++ items (assets res)
           | None => items (assets res)
           end;
         other := other (assets res) |} in
    ret {| term := term;
           results := Some {| assets := assets; albums := albums res |};
           title := "Search" |}
  else ret {| term := term; results := None; title := "Search" |}.

End SearchPage.

(* ================================================================== *)
(** * Part II. Properties                                              *)
(* ================================================================== *)

(** ** Pagination *)

Section PaginationFacts.
Import InfraUtils.
Context {Entity : Type}.

Lemma paginationHelper_items (l : list Entity) (n : nat) :
  items (paginationHelper l n) = firstn n l.
Proof. reflexivity. Qed.

Lemma paginationHelper_hasNextPage (l : list Entity) (n : nat) :
  hasNextPage (paginationHelper l n) = true ↔ n < length l.
Proof. unfold paginationHelper; simpl. apply Nat.ltb_lt. Qed.

(** Cutting at [n + 1] and then at [n] is cutting at [n]. *)
Lemma firstn_succ_firstn (l : list Entity) (n : nat) :
  firstn n (firstn (n + 1) l) = firstn n l.
Proof.
  rewrite firstn_firstn. f_equal. lia.
Qed.

(** The rows selected by the options [paginate] builds. *)
Lemma find_paginate (rows : list Entity) (w : option (Entity → bool))
    (n : nat) (k : option nat) :
  selectRows rows {| find_where := w; find_take := Some (n + 1); find_skip := k |}
  = firstn (n + 1)
      (skipn (default 0 k)
         (match w with Some p => List.filter p rows | None => rows end)).
Proof.
  unfold selectRows; simpl. destruct k; reflexivity.
Qed.

(** [paginate] calls [find] once, with the search options, [take + 1] and
    [skip], and cuts the answer to [take] rows. *)
Lemma paginate_find (repository : Repository Entity) (n : nat) (k : option nat)
    (w : option (Entity → bool)) :
  let request := {| find_where := w; find_take := Some (n + 1); find_skip := k |} in
  let found := selectRows (table repository) request in
  paginate repository {| take := n; skip := k |} w
  = (paginationHelper found n,
     {| table := table repository;
        received := received repository ++ [(request, found)] |}).
Proof. reflexivity. Qed.

End PaginationFacts.

(** C4. [paginate] sends the repository one request, for [take + 1] of the
    matching rows after skipping [skip], and leaves the table as it is.
    Over [N] matching rows it returns [min (N - skip) take] items, namely
    the rows [skip .. skip + take) of the matching ones, and [hasNextPage]
    holds exactly when [N - skip > take], that is, exactly when [take + 1]
    rows came back, in which case the page is cut to [take] items;
    otherwise all rows that came back are returned. *)
Theorem paginate_page_size_and_lookahead {Entity : Type}
    (repository : InfraUtils.Repository Entity)
    (searchOptions : option (Entity → bool)) (take : nat) (skip : option nat) :
  let matching :=
    match searchOptions with
    | Some p => List.filter p (InfraUtils.table repository)
    | None => InfraUtils.table repository
    end in
  let N := length matching in
  let skipped := default 0 skip in
  let result :=
    InfraUtils.paginate repository
      {| InfraUtils.take := take; InfraUtils.skip := skip |} searchOptions in
  let page := result.1 in
  ∃ requested : list Entity,
    InfraUtils.received result.2
    = InfraUtils.received repository
      ++ [({| InfraUtils.find_where := searchOptions;
              InfraUtils.find_take := Some (take + 1);
              InfraUtils.find_skip := skip |}, requested)]
    ∧ InfraUtils.table result.2 = InfraUtils.table repository
    ∧ requested = firstn (take + 1) (skipn skipped matching)
    ∧ InfraUtils.items page = firstn take (skipn skipped matching)
    ∧ length (InfraUtils.items page) = Nat.min (N - skipped) take
    ∧ InfraUtils.hasNextPage page = (take <? N - skipped)
    ∧ (InfraUtils.hasNextPage page = true ↔ length requested = take + 1)
    ∧ (InfraUtils.hasNextPage page = true → length (InfraUtils.items page) = take)
    ∧ (InfraUtils.hasNextPage page = false → InfraUtils.items page = requested).
Proof.
  intros matching N skipped result page.
  unfold page, result. rewrite paginate_find. cbn [fst snd InfraUtils.table InfraUtils.received].
  set (requested := InfraUtils.selectRows _ _).
  exists requested.
  assert (Hreq : requested = firstn (take + 1) (skipn skipped matching))
    by apply find_paginate.
  assert (Hlen : length requested = Nat.min (take + 1) (N - skipped)).
  { rewrite Hreq, length_firstn, length_skipn. reflexivity. }
  assert (Hitems : InfraUtils.items (InfraUtils.paginationHelper requested take)
                   = firstn take (skipn skipped matching)).
  { simpl. rewrite Hreq. apply firstn_succ_firstn. }
  assert (Hnext : InfraUtils.hasNextPage (InfraUtils.paginationHelper requested take)
                  = (take <? N - skipped)).
  { simpl. rewrite Hlen.
    destruct (Nat.ltb_spec take (N - skipped));
      [apply Nat.ltb_lt | apply Nat.ltb_ge]; lia. }
  assert (Hsize : length (InfraUtils.items (InfraUtils.paginationHelper requested take))
                  = Nat.min (N - skipped) take).
  { rewrite Hitems, length_firstn, length_skipn. fold N. lia. }
  split; [reflexivity|]. split; [reflexivity|].
  repeat split; try assumption.
  - rewrite Hnext, Hlen. intros H%Nat.ltb_lt. lia.
  - rewrite Hnext, Hlen. intros H. apply Nat.ltb_lt. lia.
  - rewrite Hnext, Hsize. intros H%Nat.ltb_lt. lia.
  - rewrite Hnext. intros H%Nat.ltb_ge.
    rewrite Hitems, Hreq.
    rewrite !firstn_all2; try reflexivity; rewrite length_skipn; fold N; lia.
Qed.

(** With [mode = LIMIT_OFFSET], [paginatedBuilder] returns the page that
    [paginate] returns. *)
Lemma paginatedBuilder_limit_offset {Entity : Type} (rows : list Entity)
    (take skip : nat) :
  InfraUtils.paginatedBuilder rows InfraUtils.noPaging
    {| InfraUtils.pb_take := take; InfraUtils.pb_skip := skip;
       InfraUtils.pb_mode := Some InfraUtils.LIMIT_OFFSET |}
  = (InfraUtils.paginate {| InfraUtils.table := rows; InfraUtils.received := [] |}
       {| InfraUtils.take := take; InfraUtils.skip := Some skip |} None).1.
Proof.
  unfold InfraUtils.paginatedBuilder, InfraUtils.getMany. simpl.
  replace (take + 1) with (S take) by lia. simpl.
  destruct skip; reflexivity.
Qed.

(** In the other mode the two numbers change places: [take + 1] rows are
    skipped and [skip] rows are fetched, all that follow when [skip] is 0. *)
Lemma paginatedBuilder_skip_take {Entity : Type} (rows : list Entity)
    (take skip : nat) (mode : option InfraUtils.PaginationMode) :
  mode ≠ Some InfraUtils.LIMIT_OFFSET →
  InfraUtils.paginatedBuilder rows InfraUtils.noPaging
    {| InfraUtils.pb_take := take; InfraUtils.pb_skip := skip;
       InfraUtils.pb_mode := mode |}
  = InfraUtils.paginationHelper
      (match skip with
       | 0 => skipn (take + 1) rows
       | S _ => firstn skip (skipn (take + 1) rows)
       end) take.
Proof.
  intros Hmode. unfold InfraUtils.paginatedBuilder, InfraUtils.getMany; simpl.
  replace (take + 1) with (S take) by lia.
  destruct mode as [[]|]; try congruence; destruct skip; reflexivity.
Qed.

(** C2, evaluated.  Over three rows, with [take = 1] and [skip = 1], the
    mode LIMIT_OFFSET returns the second row and announces a next page; the
    skip/take mode returns the third row and announces none. *)
Theorem paginatedBuilder_modes_differ :
  let rows := [10; 20; 30] in
  let options mode :=
    {| InfraUtils.pb_take := 1; InfraUtils.pb_skip := 1;
       InfraUtils.pb_mode := Some mode |} in
  InfraUtils.paginatedBuilder rows InfraUtils.noPaging (options InfraUtils.LIMIT_OFFSET)
  = {| InfraUtils.items := [20]; InfraUtils.hasNextPage := true |}
  ∧ InfraUtils.paginatedBuilder rows InfraUtils.noPaging (options InfraUtils.SKIP_TAKE)
    = {| InfraUtils.items := [30]; InfraUtils.hasNextPage := false |}.
Proof. split; reflexivity. Qed.

(** ** The [Chunked] decorator *)

Section ChunkingFacts.
Import Chunking.
Context {A : Type}.

(** The chunks, put together again, are the collection. *)
Lemma chunksFrom_concat (size : nat) (l chunk : list A) :
  concat (chunksFrom size chunk l) = chunk ++ l.
Proof.
  revert chunk. induction l as [|x l IH]; intros chunk; simpl.
  - destruct chunk; simpl; rewrite ?app_nil_r; reflexivity.
  - destruct (length (chunk ++ [x]) =? size); simpl; rewrite IH; simpl;
      rewrite <- ?app_assoc; reflexivity.
Qed.

Lemma chunks_concat (l : list A) (size : nat) : concat (chunks l size) = l.
Proof. apply chunksFrom_concat. Qed.

(** No chunk is longer than the bound. *)
Lemma chunksFrom_bounded (size : nat) (l chunk : list A) :
  length chunk < size →
  Forall (λ c, length c ≤ size) (chunksFrom size chunk l).
Proof.
  revert chunk. induction l as [|x l IH]; intros chunk Hlen; simpl.
  - destruct chunk; constructor; [simpl in *; lia | constructor].
  - destruct (Nat.eqb_spec (length (chunk ++ [x])) size) as [Heq|Hne].
    + constructor; [lia | apply IH; simpl; lia].
    + apply IH. rewrite length_app in *. simpl in *. lia.
Qed.

Lemma chunks_bounded (l : list A) (size : nat) :
  0 < size → Forall (λ c, length c ≤ size) (chunks l size).
Proof. intros H. apply chunksFrom_bounded. simpl. lia. Qed.

(** A collection that is not empty has at least one chunk. *)
Lemma chunksFrom_nonempty (size : nat) (l chunk : list A) :
  chunk ++ l ≠ [] → chunksFrom size chunk l ≠ [].
Proof.
  intros H Hnil. apply H. rewrite <- (chunksFrom_concat size), Hnil. reflexivity.
Qed.

Context {B : Type} `{Countable B}.

(** Within the bound the method is called once, on the whole collection,
    and its result is returned as it is. *)
Lemma Chunked_within_bound (chunkSize : nat) (mergeFn : option (JsVal B → JsVal B))
    (originalMethod : list A → JsVal B) (arg : list A) :
  length arg ≤ chunkSize →
  Chunked chunkSize mergeFn originalMethod arg = (originalMethod arg, [arg]).
Proof.
  intros Hlen. unfold Chunked.
  destruct (Nat.leb_spec (length arg) chunkSize); [reflexivity | lia].
Qed.

Lemma flatten_undefined (n : nat) :
  flatten (JArray (repeat (@JUndefined B _ _) n)) = JArray (repeat JUndefined n).
Proof.
  unfold flatten. f_equal. induction n as [|n IH]; simpl; [|rewrite IH]; reflexivity.
Qed.

Lemma map_const_repeat {X Y : Type} (y : Y) (l : list X) :
  map (λ _, y) l = repeat y (length l).
Proof. induction l as [|x l IH]; simpl; [|rewrite IH]; reflexivity. Qed.

(** Beyond the bound the method is called once per chunk, and what it
    returns is dropped: the merged array holds one [undefined] per chunk,
    whatever the method computes. *)
Lemma ChunkedArray_beyond_bound (chunkSize : nat)
    (originalMethod : list A → JsVal B) (arg : list A) :
  chunkSize < length arg →
  ChunkedArray chunkSize originalMethod arg
  = (JArray (repeat JUndefined (length (chunks arg chunkSize))),
     chunks arg chunkSize).
Proof.
  intros Hlen. unfold ChunkedArray, Chunked.
  destruct (Nat.leb_spec (length arg) chunkSize); [lia|].
  rewrite map_const_repeat, flatten_undefined. reflexivity.
Qed.

(** So beyond the bound the merged result is never an array of the
    method's own elements. *)
Lemma ChunkedArray_beyond_bound_differs (chunkSize : nat)
    (originalMethod : list A → JsVal B) (arg : list A) (elements : list B) :
  chunkSize < length arg →
  originalMethod arg = JArray (map JAtom elements) →
  (ChunkedArray chunkSize originalMethod arg).1 ≠ originalMethod arg.
Proof.
  intros Hlen Hres. rewrite ChunkedArray_beyond_bound by exact Hlen. simpl.
  rewrite Hres. intros Heq. injection Heq as Heq.
  assert (Hne : chunks arg chunkSize ≠ []).
  { apply chunksFrom_nonempty. simpl. destruct arg; [simpl in Hlen; lia | discriminate]. }
  destruct (chunks arg chunkSize); [congruence|].
  destruct elements; simpl in Heq; discriminate.
Qed.

End ChunkingFacts.

(** C5, evaluated.  With a bound of 2, a method that returns its three
    arguments unchunked is called on the chunks [1; 2] and [3], and the
    wrapper returns an array of two [undefined]; for a set argument the
    union is empty.  Within the bound the result is the method's own. *)
Theorem Chunked_drops_chunk_results :
  let echo (l : list nat) : Chunking.JsVal nat :=
    Chunking.JArray (map Chunking.JAtom l) in
  let echoSet (l : list nat) : Chunking.JsVal nat :=
    Chunking.JSet (list_to_set l) in
  echo [1; 2; 3]
  = Chunking.JArray [Chunking.JAtom 1; Chunking.JAtom 2; Chunking.JAtom 3]
  ∧ Chunking.ChunkedArray 2 echo [1; 2; 3]
    = (Chunking.JArray [Chunking.JUndefined; Chunking.JUndefined], [[1; 2]; [3]])
  ∧ Chunking.ChunkedArray 3 echo [1; 2; 3] = (echo [1; 2; 3], [[1; 2; 3]])
  ∧ (Chunking.ChunkedSet 2 echoSet ({[1; 2; 3]} : gset nat)).1 = Chunking.JSet ∅
  ∧ echoSet (elements ({[1; 2; 3]} : gset nat)) ≠ Chunking.JSet ∅.
Proof.
  repeat split; try reflexivity.
  vm_compute. discriminate.
Qed.

(** ** [searchAssetBuilder] *)

Section SearchBuilderFacts.
Import SearchBuilder.

Lemma notNullCount_app (field : string) (ws1 ws2 : list WhereObject) :
  notNullCount field (ws1 ++ ws2) = notNullCount field ws1 + notNullCount field ws2.
Proof.
  unfold notNullCount. rewrite concat_app, List.filter_app, length_app. reflexivity.
Qed.

Lemma notNullCount_one (field : string) (w : WhereObject) :
  notNullCount field [w] = length (List.filter (isNotNullOn field) w).
Proof. unfold notNullCount. simpl. rewrite app_nil_r. reflexivity. Qed.

Lemma omitUndefined_plain (field : string) (object : list (string * option FindOperator)) :
  Forall plain object →
  List.filter (isNotNullOn field) (omitUndefined object) = [].
Proof.
  induction 1 as [|kv object Hkv _ IH]; [reflexivity|].
  destruct kv as [k [op|]]; unfold omitUndefined in *; simpl; [|exact IH].
  replace (isNotNullOn field (k, op)) with false; [exact IH|].
  unfold isNotNullOn; simpl. unfold plain in Hkv; simpl in Hkv.
  destruct op; try (rewrite andb_false_r; reflexivity). congruence.
Qed.

Lemma OptionalBetween_plain (k : string) (from to : option Z) :
  plain (k, OptionalBetween from to).
Proof. unfold plain; destruct from, to; simpl; congruence. Qed.

Lemma str_plain (k : string) (v : option string) : plain (k, str v).
Proof. unfold plain; destruct v; simpl; congruence. Qed.

Lemma flag_plain (k : string) (v : option bool) : plain (k, flag v).
Proof. unfold plain; destruct v; simpl; congruence. Qed.

Create HintDb plain.
#[local] Hint Resolve OptionalBetween_plain str_plain flag_plain : plain.

Ltac plain_object :=
  apply omitUndefined_plain; repeat constructor; auto with plain.

Lemma dateWhere_plain field d : List.filter (isNotNullOn field) (dateWhere d) = [].
Proof. plain_object. Qed.

Lemma exifWhere_plain field e : List.filter (isNotNullOn field) (exifWhere e) = [].
Proof. plain_object. Qed.

Lemma idWhere_plain field i : List.filter (isNotNullOn field) (idWhere i) = [].
Proof. plain_object. Qed.

Lemma pathWhere_plain field p : List.filter (isNotNullOn field) (pathWhere p) = [].
Proof. plain_object. Qed.

Lemma otherStatusesWhere_plain field s :
  List.filter (isNotNullOn field) (otherStatusesWhere s) = [].
Proof. plain_object. Qed.

(** The "is not null" predicates among the where-objects of the options:
    none before the status block, and in the status block those of
    [isEncoded] and [isMotion]. *)
Lemma notNullCount_whereObjects (field : string) (o : AssetSearchBuilderOptions) :
  notNullCount field (whereObjects o)
  = match status o with
    | Some s =>
        (if encodedWanted o s then notNullCount field [encodedNotNull] else 0)
        + (if Js.truthyFlag (isMotion s) then notNullCount field [motionNotNull] else 0)
    | None => 0
    end.
Proof.
  unfold whereObjects, dateWheres, exifWheres, idWheres, pathWheres, statusWheres.
  rewrite !notNullCount_app.
  replace (notNullCount field match date o with Some d => [dateWhere d] | None => [] end)
    with 0 by (destruct (date o); rewrite ?notNullCount_one, ?dateWhere_plain; reflexivity).
  replace (notNullCount field match exif o with Some e => [exifWhere e] | None => [] end)
    with 0 by (destruct (exif o); rewrite ?notNullCount_one, ?exifWhere_plain; reflexivity).
  replace (notNullCount field match idOptions o with Some i => [idWhere i] | None => [] end)
    with 0 by (destruct (idOptions o); rewrite ?notNullCount_one, ?idWhere_plain; reflexivity).
  replace (notNullCount field match path o with Some p => [pathWhere p] | None => [] end)
    with 0 by (destruct (path o); rewrite ?notNullCount_one, ?pathWhere_plain; reflexivity).
  destruct (status o) as [s|]; [|reflexivity].
  rewrite !notNullCount_app, notNullCount_one, otherStatusesWhere_plain.
  destruct (encodedWanted o s), (Js.truthyFlag (isMotion s)); reflexivity.
Qed.

(** *** The builder *)

Lemma addWheres_nil b : addWheres [] b = b.
Proof. destruct b. unfold addWheres. simpl. rewrite app_nil_r. reflexivity. Qed.

Lemma addJoins_nil b : addJoins [] b = b.
Proof. destruct b. unfold addJoins. simpl. rewrite app_nil_r. reflexivity. Qed.

Lemma addWheres_addWheres ws1 ws2 b :
  addWheres ws2 (addWheres ws1 b) = addWheres (ws1 ++ ws2) b.
Proof. unfold addWheres. simpl. rewrite app_assoc. reflexivity. Qed.

Lemma addJoins_addJoins js1 js2 b :
  addJoins js2 (addJoins js1 b) = addJoins (js1 ++ js2) b.
Proof. unfold addJoins. simpl. rewrite app_assoc. reflexivity. Qed.

Lemma bind_returned {S A B : Type} (c : M S A) (k : A → M S B) (s s' : S) (a : A) :
  c s = (Returned a, s') → bind c k s = k a s'.
Proof. intros H. unfold bind. rewrite H. reflexivity. Qed.

Lemma bind_threw {S A B : Type} (c : M S A) (k : A → M S B) (s s' : S) (e : Error) :
  c s = (Threw e, s') → bind c k s = (Threw e, s').
Proof. intros H. unfold bind. rewrite H. reflexivity. Qed.

Lemma andWhere_found w b :
  keysFound b w = true → andWhere w b = (Returned tt, addWheres [w] b).
Proof. intros H. unfold andWhere. rewrite H. reflexivity. Qed.

Lemma andWhere_not_found w b :
  keysFound b w = false → andWhere w b = (Threw EntityPropertyNotFound, b).
Proof. intros H. unfold andWhere. rewrite H. reflexivity. Qed.

Lemma join_found j b :
  isRelation b (joinRelation j) = true → join j b = (Returned tt, addJoins [j] b).
Proof. intros H. unfold join. rewrite H. reflexivity. Qed.

(** A list of where-objects, each handed to [andWhere] if its condition
    holds: when all keys are found, all of them are added. *)
Lemma forallb_one {A : Type} (p : A → bool) (x : A) : forallb p [x] = p x.
Proof. simpl. apply andb_true_r. Qed.

Lemma applyDate_accepted o b :
  forallb (keysFound b) (dateWheres o) = true →
  applyDate o b = (Returned tt, addWheres (dateWheres o) b).
Proof.
  unfold applyDate, dateWheres. destruct (date o) as [d|].
  - rewrite forallb_one. apply andWhere_found.
  - intros _. rewrite addWheres_nil. reflexivity.
Qed.

Lemma applyId_accepted o b :
  forallb (keysFound b) (idWheres o) = true →
  applyId o b = (Returned tt, addWheres (idWheres o) b).
Proof.
  unfold applyId, idWheres. destruct (idOptions o) as [i|].
  - rewrite forallb_one. apply andWhere_found.
  - intros _. rewrite addWheres_nil. reflexivity.
Qed.

Lemma applyPath_accepted o b :
  forallb (keysFound b) (pathWheres o) = true →
  applyPath o b = (Returned tt, addWheres (pathWheres o) b).
Proof.
  unfold applyPath, pathWheres. destruct (path o) as [p|].
  - rewrite forallb_one. apply andWhere_found.
  - intros _. rewrite addWheres_nil. reflexivity.
Qed.

Lemma applyExif_accepted o b :
  forallb (keysFound b) (exifWheres o) = true →
  forallb (λ j, isRelation b (joinRelation j)) (exifJoins (alias b) o) = true →
  applyExif o b
  = (Returned tt, addJoins (exifJoins (alias b) o) (addWheres (exifWheres o) b)).
Proof.
  unfold applyExif, exifWheres, exifJoins. destruct (exif o) as [e|].
  - rewrite forallb_one. intros Hkeys Hjoin.
    rewrite (bind_returned _ _ _ _ _ (andWhere_found _ _ Hkeys)).
    unfold when. destruct (0 <? length (exifWhere e)).
    + rewrite forallb_one in Hjoin. unfold bind, gets, leftJoin.
      rewrite join_found by exact Hjoin. reflexivity.
    + rewrite addJoins_nil. reflexivity.
  - intros _ _. rewrite addWheres_nil, addJoins_nil. reflexivity.
Qed.

Lemma applyStatus_accepted o b :
  forallb (keysFound b) (statusWheres o) = true →
  applyStatus o b = (Returned tt, addWheres (statusWheres o) b).
Proof.
  unfold applyStatus, statusWheres. destruct (status o) as [s|].
  - rewrite !forallb_app, forallb_one, !andb_true_iff. intros (Hother & Henc & Hmotion).
    rewrite (bind_returned _ _ _ _ _ (andWhere_found _ _ Hother)).
    unfold when.
    destruct (encodedWanted o s), (Js.truthyFlag (isMotion s));
      rewrite ?forallb_one in *; unfold bind, ret;
      rewrite ?(andWhere_found encodedNotNull) by exact Henc;
      rewrite ?(andWhere_found motionNotNull) by exact Hmotion;
      rewrite ?addWheres_addWheres, ?app_nil_r; reflexivity.
  - intros _. rewrite addWheres_nil. reflexivity.
Qed.

Lemma applyRelation_accepted o b :
  forallb (λ j, isRelation b (joinRelation j)) (relationJoins (alias b) o) = true →
  applyRelation o b = (Returned tt, addJoins (relationJoins (alias b) o) b).
Proof.
  unfold applyRelation, relationJoins. destruct (relation o) as [r|].
  - rewrite !forallb_app, !andb_true_iff.
    intros (Hexif & Hfaces & Hperson & Hsmart & Hstack).
    unfold when, bind, gets, ret, leftJoinAndSelect.
    destruct (Js.truthyFlag (withExif r));
      [rewrite forallb_one in Hexif; rewrite join_found by exact Hexif|];
      (destruct (Js.truthyFlag (withFaces r) || Js.truthyFlag (withPeople r));
       [rewrite forallb_one in Hfaces; rewrite join_found by exact Hfaces|]);
      (destruct (Js.truthyFlag (withPeople r));
       [rewrite forallb_one in Hperson; rewrite join_found by exact Hperson|]);
      (destruct (Js.truthyFlag (withSmartInfo r));
       [rewrite forallb_one in Hsmart; rewrite join_found by exact Hsmart|]);
      (destruct (Js.truthyFlag (withStacked r));
       [rewrite forallb_one in Hstack; rewrite join_found by exact Hstack|]);
      rewrite ?addJoins_addJoins, ?addJoins_nil; reflexivity.
  - intros _. rewrite addJoins_nil. reflexivity.
Qed.

(** When the builder finds every key and every relation,
    [searchAssetBuilder] returns, with the where-objects and the joins of
    the options added in order and the switch for soft-deleted rows set
    when the options ask for it. *)
Lemma searchAssetBuilder_accepted b o :
  accepted b o = true → searchAssetBuilder b o = (Returned tt, extended b o).
Proof.
  unfold accepted, whereObjects.
  rewrite andb_true_iff, !forallb_app, !andb_true_iff.
  intros [(Hdate & Hexif & Hid & Hpath & Hstatus) (Hje & Hjr)].
  unfold searchAssetBuilder.
  rewrite (bind_returned _ _ _ _ _ (applyDate_accepted o b Hdate)).
  rewrite (bind_returned _ _ _ _ _
             (applyExif_accepted o (addWheres (dateWheres o) b) Hexif Hje)).
  match goal with
  | |- bind (applyId o) _ ?st = _ =>
      rewrite (bind_returned _ _ st _ _ (applyId_accepted o st Hid))
  end.
  match goal with
  | |- bind (applyPath o) _ ?st = _ =>
      rewrite (bind_returned _ _ st _ _ (applyPath_accepted o st Hpath))
  end.
  match goal with
  | |- bind (applyStatus o) _ ?st = _ =>
      rewrite (bind_returned _ _ st _ _ (applyStatus_accepted o st Hstatus))
  end.
  match goal with
  | |- bind (applyRelation o) _ ?st = _ =>
      rewrite (bind_returned _ _ st _ _ (applyRelation_accepted o st Hjr))
  end.
  unfold when, builderWithDeleted, modify, ret, extended, whereObjects,
    setWithDeleted, addWheres, addJoins. cbn [alias columns relations wheres joins includesDeleted].
  rewrite <- !app_assoc.
  destruct (withDeletedOf o); rewrite ?orb_true_r, ?orb_false_r; reflexivity.
Qed.

(** *** What holds on every path *)

Lemma quiet_ret {A : Type} (a : A) : quiet (ret a).
Proof. intros b. simpl. repeat split. discriminate. Qed.

Lemma quiet_gets {A : Type} (f : SelectQueryBuilder → A) : quiet (gets f).
Proof. intros b. simpl. repeat split. discriminate. Qed.

Lemma quiet_bind {A B : Type} (c : M SelectQueryBuilder A)
    (k : A → M SelectQueryBuilder B) :
  quiet c → (∀ a, quiet (k a)) → quiet (bind c k).
Proof.
  intros Hc Hk b. unfold bind. specialize (Hc b).
  destruct (c b) as [[a|e|] b1]; simpl in *.
  - destruct Hc as (_ & Hcols & Hdel). destruct (Hk a b1) as (Hp & Hcols' & Hdel').
    rewrite Hcols', Hdel', Hcols, Hdel. auto.
  - destruct Hc as (_ & Hcols & Hdel). repeat split; [discriminate | assumption ..].
  - destruct Hc as [Hp _]. congruence.
Qed.

Lemma quiet_andWhere w : quiet (andWhere w).
Proof.
  intros b. unfold andWhere. destruct (keysFound b w); simpl; repeat split; discriminate.
Qed.

Lemma quiet_join j : quiet (join j).
Proof.
  intros b. unfold join. destruct (isRelation b (joinRelation j)); simpl;
    repeat split; discriminate.
Qed.

Lemma quiet_when (c : bool) (f : M SelectQueryBuilder unit) : quiet f → quiet (when c f).
Proof. intros Hf. destruct c; [exact Hf | apply quiet_ret]. Qed.

Create HintDb quiet.
#[local] Hint Resolve quiet_ret quiet_gets quiet_andWhere quiet_join quiet_when : quiet.

Ltac quiet_steps :=
  repeat first
    [ apply quiet_bind; [|intros ?]
    | apply quiet_when
    | apply quiet_andWhere
    | apply quiet_join
    | apply quiet_gets
    | apply quiet_ret ].

Lemma quiet_applyDate o : quiet (applyDate o).
Proof. unfold applyDate. destruct (date o); quiet_steps. Qed.

Lemma quiet_applyExif o : quiet (applyExif o).
Proof. unfold applyExif, leftJoin. destruct (exif o); quiet_steps. Qed.

Lemma quiet_applyId o : quiet (applyId o).
Proof. unfold applyId. destruct (idOptions o); quiet_steps. Qed.

Lemma quiet_applyPath o : quiet (applyPath o).
Proof. unfold applyPath. destruct (path o); quiet_steps. Qed.

(** A key of the object literal that has a value and is not a column makes
    the builder refuse the where-object. *)
Lemma keysFound_omitUndefined_missing b (object : list (string * option FindOperator))
    (k : string) (op : FindOperator) :
  In (k, Some op) object → isColumn b k = false →
  keysFound b (omitUndefined object) = false.
Proof.
  intros Hin Hmissing. unfold keysFound, omitUndefined.
  induction object as [|[k' [op'|]] object IH]; [contradiction| |].
  - cbn [omap list_omap fst snd forallb].
    destruct Hin as [[= -> ->]|Hin]; [rewrite Hmissing; reflexivity|].
    rewrite (IH Hin). apply andb_false_r.
  - cbn [omap list_omap fst snd]. destruct Hin as [Hin|Hin]; [discriminate Hin|].
    exact (IH Hin).
Qed.

(** The status block with [withDeleted] supplied, on an entity without a
    column of that name: the first call throws and nothing is added. *)
Lemma applyStatus_withDeleted o s (v : bool) b :
  status o = Some s → withDeleted s = Some v → isColumn b "withDeleted" = false →
  applyStatus o b = (Threw EntityPropertyNotFound, b).
Proof.
  intros Hs Hv Hmissing. unfold applyStatus. rewrite Hs.
  apply bind_threw, andWhere_not_found.
  unfold otherStatusesWhere.
  apply (keysFound_omitUndefined_missing b _ "withDeleted" (Equal (Js.VBool v)));
    [|exact Hmissing].
  rewrite Hv. simpl. do 8 right. left. reflexivity.
Qed.

(** A quiet step in front of a computation that throws without touching
    the switch gives a computation that throws without touching it. *)
Lemma quiet_then_throws {A B : Type} (c : M SelectQueryBuilder A)
    (k : M SelectQueryBuilder B) (b : SelectQueryBuilder) :
  quiet c →
  (∀ b1, columns b1 = columns b →
         ∃ e b', k b1 = (Threw e, b') ∧ includesDeleted b' = includesDeleted b1) →
  ∃ e b', bind c (λ _, k) b = (Threw e, b') ∧ includesDeleted b' = includesDeleted b.
Proof.
  intros Hc Hk. unfold bind. destruct (Hc b) as (Hp & Hcols & Hdel).
  destruct (c b) as [[a|e|] b1]; simpl in *.
  - destruct (Hk b1 Hcols) as (e & b' & -> & Hdel'). exists e, b'.
    split; [reflexivity | congruence].
  - exists e, b1. split; [reflexivity | exact Hdel].
  - congruence.
Qed.

Lemma grows_same {A : Type} (c : M SelectQueryBuilder A) :
  (∀ b, (c b).2 = b) → grows c.
Proof.
  intros H b. rewrite H. split; [reflexivity|].
  split; [exists []; symmetry; apply app_nil_r|].
  split; [exists []; symmetry; apply app_nil_r | auto].
Qed.

Lemma grows_bind {A B : Type} (c : M SelectQueryBuilder A)
    (k : A → M SelectQueryBuilder B) :
  grows c → (∀ a, grows (k a)) → grows (bind c k).
Proof.
  intros Hc Hk b. unfold bind. specialize (Hc b).
  destruct (c b) as [[a|e|] b1]; simpl in *; try exact Hc.
  destruct Hc as (Halias & [ws Hws] & [js Hjs] & Hdel).
  destruct (Hk a b1) as (Halias' & [ws' Hws'] & [js' Hjs'] & Hdel').
  split; [congruence|].
  split; [exists (ws ++ ws'); rewrite Hws', Hws, app_assoc; reflexivity|].
  split; [exists (js ++ js'); rewrite Hjs', Hjs, app_assoc; reflexivity | auto].
Qed.

Lemma grows_andWhere w : grows (andWhere w).
Proof.
  intros b. unfold andWhere. destruct (keysFound b w); simpl.
  - split; [reflexivity|]. split; [exists [w]; reflexivity|].
    split; [exists []; symmetry; apply app_nil_r | auto].
  - split; [reflexivity|]. split; [exists []; symmetry; apply app_nil_r|].
    split; [exists []; symmetry; apply app_nil_r | auto].
Qed.

Lemma grows_join j : grows (join j).
Proof.
  intros b. unfold join. destruct (isRelation b (joinRelation j)); simpl;
    (split; [reflexivity|]; split; [exists []; symmetry; apply app_nil_r|];
     split; [exists [j]; reflexivity | auto]).
Qed.

Lemma grows_builderWithDeleted : grows builderWithDeleted.
Proof.
  intros b. simpl. split; [reflexivity|].
  split; [exists []; symmetry; apply app_nil_r|].
  split; [exists []; symmetry; apply app_nil_r | auto].
Qed.

Lemma grows_when (c : bool) (f : M SelectQueryBuilder unit) : grows f → grows (when c f).
Proof. intros Hf. destruct c; [exact Hf | apply grows_same; reflexivity]. Qed.

Ltac grows_steps :=
  repeat first
    [ apply grows_bind; [|intros ?]
    | apply grows_when
    | apply grows_andWhere
    | apply grows_join
    | apply grows_builderWithDeleted
    | apply grows_same; reflexivity ].

Lemma grows_applyDate o : grows (applyDate o).
Proof. unfold applyDate. destruct (date o); grows_steps. Qed.

Lemma grows_applyExif o : grows (applyExif o).
Proof. unfold applyExif, leftJoin. destruct (exif o); cbv zeta; grows_steps. Qed.

Lemma grows_applyId o : grows (applyId o).
Proof. unfold applyId. destruct (idOptions o); grows_steps. Qed.

Lemma grows_applyPath o : grows (applyPath o).
Proof. unfold applyPath. destruct (path o); grows_steps. Qed.

Lemma grows_applyStatus o : grows (applyStatus o).
Proof. unfold applyStatus. destruct (status o); grows_steps. Qed.

Lemma grows_applyRelation o : grows (applyRelation o).
Proof. unfold applyRelation, leftJoinAndSelect. destruct (relation o); grows_steps. Qed.

(** Whether it returns or throws, [searchAssetBuilder] only adds to the
    builder. *)
Lemma grows_searchAssetBuilder o : grows (λ b, searchAssetBuilder b o).
Proof.
  unfold searchAssetBuilder.
  repeat (apply grows_bind; [|intros _]);
    auto using grows_applyDate, grows_applyExif, grows_applyId, grows_applyPath,
      grows_applyStatus, grows_applyRelation.
  apply grows_when, grows_builderWithDeleted.
Qed.

End SearchBuilderFacts.

(** Without [status.withDeleted], an accepted filter includes soft-deleted
    rows exactly when it has a trashed-date bound, unless the builder
    included them already. *)
Lemma searchAssetBuilder_trashed_bounds (b : SearchBuilder.SelectQueryBuilder)
    (o : SearchBuilder.AssetSearchBuilderOptions) :
  SearchBuilder.accepted b o = true →
  SearchBuilder.statusWithDeleted o = None →
  SearchBuilder.includesDeleted (SearchBuilder.searchAssetBuilder b o).2
  = SearchBuilder.includesDeleted b
    || bool_decide (is_Some (SearchBuilder.dateTrashedAfter o))
    || bool_decide (is_Some (SearchBuilder.dateTrashedBefore o)).
Proof.
  intros Haccepted Hnone. rewrite (searchAssetBuilder_accepted b o Haccepted). simpl.
  unfold SearchBuilder.withDeletedOf. rewrite Hnone, orb_assoc. reflexivity.
Qed.

(** C3. [status.withDeleted], when it is supplied, true or false, stays
    among the status flags that are handed to the builder as predicates on
    columns of their names.  On an entity without a property
    [withDeleted] the builder refuses the where-object: [searchAssetBuilder]
    throws, [builder.withDeleted()] is not reached, and the switch that
    makes soft-deleted rows eligible is as it was. *)
Theorem searchAssetBuilder_withDeleted_refused (b : SearchBuilder.SelectQueryBuilder)
    (o : SearchBuilder.AssetSearchBuilderOptions)
    (s : SearchBuilder.SearchStatusOptions) (v : bool) :
  SearchBuilder.status o = Some s →
  SearchBuilder.withDeleted s = Some v →
  SearchBuilder.isColumn b "withDeleted" = false →
  ∃ (e : Error) (b' : SearchBuilder.SelectQueryBuilder),
    SearchBuilder.searchAssetBuilder b o = (Threw e, b')
    ∧ SearchBuilder.includesDeleted b' = SearchBuilder.includesDeleted b.
Proof.
  intros Hs Hv Hmissing. unfold SearchBuilder.searchAssetBuilder.
  apply quiet_then_throws; [apply quiet_applyDate|]. intros b1 Hb1.
  apply quiet_then_throws; [apply quiet_applyExif|]. intros b2 Hb2.
  apply quiet_then_throws; [apply quiet_applyId|]. intros b3 Hb3.
  apply quiet_then_throws; [apply quiet_applyPath|]. intros b4 Hb4.
  exists EntityPropertyNotFound, b4. split; [|reflexivity].
  apply bind_threw. apply (applyStatus_withDeleted o s v b4 Hs Hv).
  unfold SearchBuilder.isColumn in *. rewrite Hb4, Hb3, Hb2, Hb1. exact Hmissing.
Qed.

(** The theorem at the filter [{ status: { withDeleted: true } }] on a
    builder of an entity with a soft-delete column. *)
Lemma searchAssetBuilder_withDeleted_refused_witness :
  let s :=
    {| SearchBuilder.isArchived := None; SearchBuilder.isEncoded := None;
       SearchBuilder.isExternal := None; SearchBuilder.isFavorite := None;
       SearchBuilder.isMotion := None; SearchBuilder.isOffline := None;
       SearchBuilder.isReadOnly := None; SearchBuilder.isVisible := None;
       SearchBuilder.type := None; SearchBuilder.withArchived := None;
       SearchBuilder.withDeleted := Some true |} in
  let o :=
    {| SearchBuilder.date := None; SearchBuilder.idOptions := None;
       SearchBuilder.exif := None; SearchBuilder.path := None;
       SearchBuilder.relation := None; SearchBuilder.status := Some s |} in
  let b :=
    SearchBuilder.createQueryBuilder
      ["id"; "ownerId"; "deletedAt"; "isArchived"; "isFavorite"; "isVisible"]
      ["exifInfo"; "faces"] "asset" in
  ∃ (e : Error) (b' : SearchBuilder.SelectQueryBuilder),
    SearchBuilder.searchAssetBuilder b o = (Threw e, b')
    ∧ SearchBuilder.includesDeleted b' = false.
Proof.
  intros s o b.
  exact (searchAssetBuilder_withDeleted_refused b o s true eq_refl eq_refl eq_refl).
Defined.

(** C9, counterexample.  With [status.isEncoded] true and the explicit
    [path.encodedVideoPath = ''], the builder holds the explicit equality
    and the "is not null" predicate as well. *)
Lemma searchAssetBuilder_empty_encoded_path :
  let o :=
    {| SearchBuilder.date := None; SearchBuilder.idOptions := None;
       SearchBuilder.exif := None;
       SearchBuilder.path :=
         Some {| SearchBuilder.encodedVideoPath := Some "";
                 SearchBuilder.originalFileName := None;
                 SearchBuilder.originalPath := None;
                 SearchBuilder.resizePath := None; SearchBuilder.webpPath := None |};
       SearchBuilder.relation := None;
       SearchBuilder.status :=
         Some {| SearchBuilder.isArchived := None; SearchBuilder.isEncoded := Some true;
                 SearchBuilder.isExternal := None; SearchBuilder.isFavorite := None;
                 SearchBuilder.isMotion := None; SearchBuilder.isOffline := None;
                 SearchBuilder.isReadOnly := None; SearchBuilder.isVisible := None;
                 SearchBuilder.type := None; SearchBuilder.withArchived := None;
                 SearchBuilder.withDeleted := None |} |} in
  let result :=
    SearchBuilder.searchAssetBuilder
      (SearchBuilder.createQueryBuilder ["id"; "encodedVideoPath"] [] "asset") o in
  result.1 = Returned tt
  ∧ SearchBuilder.wheres result.2
    = [ [("encodedVideoPath", SearchBuilder.Equal (Js.VStr ""))];
        [];
        [("encodedVideoPath", SearchBuilder.NotIsNull)] ]
  ∧ ¬ (In SearchBuilder.encodedNotNull (SearchBuilder.wheres result.2)
       ↔ SearchBuilder.pathEncodedVideoPath o = None).
Proof.
  intros o result. split; [reflexivity|]. split; [reflexivity|].
  intros [H _]. discriminate H.
  right; right; left; reflexivity.
Qed.

(** C9, as the code has it.  For a filter with [status.isEncoded] true
    whose keys and relations the builder finds, [searchAssetBuilder]
    returns, and among the where-objects it has added there is exactly one
    "encoded path is not null" predicate when [path.encodedVideoPath] is
    absent or the empty string, and none when a non-empty explicit path is
    given. *)
Theorem searchAssetBuilder_isEncoded_predicate
    (b : SearchBuilder.SelectQueryBuilder)
    (o : SearchBuilder.AssetSearchBuilderOptions)
    (s : SearchBuilder.SearchStatusOptions) :
  SearchBuilder.status o = Some s →
  SearchBuilder.isEncoded s = Some true →
  SearchBuilder.accepted b o = true →
  let result := SearchBuilder.searchAssetBuilder b o in
  result.1 = Returned tt
  ∧ ∃ added : list SearchBuilder.WhereObject,
      SearchBuilder.wheres result.2 = SearchBuilder.wheres b ++ added
      ∧ SearchBuilder.notNullCount "encodedVideoPath" added
        = (if Js.truthyString (SearchBuilder.pathEncodedVideoPath o) then 0 else 1)
      ∧ (In SearchBuilder.encodedNotNull added
         ↔ (SearchBuilder.pathEncodedVideoPath o = None
            ∨ SearchBuilder.pathEncodedVideoPath o = Some "")).
Proof.
  intros Hs Henc Haccepted result. unfold result.
  rewrite (searchAssetBuilder_accepted b o Haccepted).
  split; [reflexivity|]. exists (SearchBuilder.whereObjects o).
  split; [reflexivity|].
  assert (Hwanted : SearchBuilder.encodedWanted o s
                    = negb (Js.truthyString (SearchBuilder.pathEncodedVideoPath o))).
  { unfold SearchBuilder.encodedWanted. rewrite Henc. reflexivity. }
  assert (Hcount : SearchBuilder.notNullCount "encodedVideoPath" (SearchBuilder.whereObjects o)
    = if Js.truthyString (SearchBuilder.pathEncodedVideoPath o) then 0 else 1).
  { rewrite notNullCount_whereObjects, Hs, Hwanted.
    destruct (Js.truthyString (SearchBuilder.pathEncodedVideoPath o)),
      (Js.truthyFlag (SearchBuilder.isMotion s)); reflexivity. }
  split; [exact Hcount|].
  assert (Htruthy : Js.truthyString (SearchBuilder.pathEncodedVideoPath o) = false
    ↔ (SearchBuilder.pathEncodedVideoPath o = None
       ∨ SearchBuilder.pathEncodedVideoPath o = Some "")).
  { destruct (SearchBuilder.pathEncodedVideoPath o) as [p|]; simpl.
    - rewrite negb_false_iff, String.eqb_eq. split.
      + intros ->. right; reflexivity.
      + intros [H|H]; congruence.
    - split; [left; reflexivity | reflexivity]. }
  rewrite <- Htruthy. split.
  - intros Hin.
    assert (Hpos : 1 ≤ SearchBuilder.notNullCount "encodedVideoPath"
                       (SearchBuilder.whereObjects o)).
    { apply in_split in Hin as (ws1 & ws2 & ->).
      rewrite notNullCount_app.
      change (SearchBuilder.encodedNotNull :: ws2)
        with ([SearchBuilder.encodedNotNull] ++ ws2).
      rewrite notNullCount_app, notNullCount_one. simpl. lia. }
    rewrite Hcount in Hpos.
    destruct (Js.truthyString (SearchBuilder.pathEncodedVideoPath o)); [lia | reflexivity].
  - intros Hf. unfold SearchBuilder.whereObjects, SearchBuilder.statusWheres.
    rewrite Hs, Hwanted, Hf. simpl.
    rewrite !in_app_iff. do 4 right. right. left. reflexivity.
Qed.

(** The theorem at a filter without a path: one predicate is added. *)
Lemma searchAssetBuilder_isEncoded_predicate_witness :
  let s :=
    {| SearchBuilder.isArchived := None; SearchBuilder.isEncoded := Some true;
       SearchBuilder.isExternal := None; SearchBuilder.isFavorite := Some true;
       SearchBuilder.isMotion := None; SearchBuilder.isOffline := None;
       SearchBuilder.isReadOnly := None; SearchBuilder.isVisible := None;
       SearchBuilder.type := None; SearchBuilder.withArchived := None;
       SearchBuilder.withDeleted := None |} in
  let o :=
    {| SearchBuilder.date := None; SearchBuilder.idOptions := None;
       SearchBuilder.exif := None; SearchBuilder.path := None;
       SearchBuilder.relation := None; SearchBuilder.status := Some s |} in
  let b :=
    SearchBuilder.createQueryBuilder ["id"; "isFavorite"; "encodedVideoPath"] [] "asset" in
  (SearchBuilder.searchAssetBuilder b o).1 = Returned tt
  ∧ ∃ added : list SearchBuilder.WhereObject,
      SearchBuilder.wheres (SearchBuilder.searchAssetBuilder b o).2
      = SearchBuilder.wheres b ++ added
      ∧ SearchBuilder.notNullCount "encodedVideoPath" added = 1.
Proof.
  intros s o b.
  destruct (searchAssetBuilder_isEncoded_predicate b o s eq_refl eq_refl eq_refl)
    as (Hreturned & added & Hadded & Hcount & _).
  split; [exact Hreturned|]. exists added. split; [exact Hadded | exact Hcount].
Defined.

(** ** The start-up sequence *)

Section DatabaseServiceFacts.
Import Domain DatabaseService.

(** Nothing is older than itself, at any precision. *)
Lemma compare_refl (v : Version) (precision : VersionType) : compare v v precision = Eq.
Proof.
  unfold compare. rewrite !Z.compare_refl. destruct precision; reflexivity.
Qed.

(** Version 0.0.0 is not newer than a version without negative fields. *)
Lemma version000_not_newer (v : Version) (precision : VersionType) :
  (0 ≤ major v)%Z → (0 ≤ minor v)%Z → (0 ≤ patch v)%Z →
  isNewerThan version000 v precision = false.
Proof.
  destruct v as [[|a|a] [|b|b] [|c|c]]; simpl; intros Hmaj Hmin Hpat; try lia;
    destruct precision; reflexivity.
Qed.

(** With a pinned precision and the minimum 0.0.0, as the field initialisers
    have it for pgvecto.rs, [assertVectorExtension] lets version 0.0.0
    pass. *)
Lemma assertVectorExtension_accepts_000_pinned (svc : Service)
    (precision : VersionType) (d : Database) :
  minVectorsVersion svc = version000 →
  maxVectorsVersion svc = inr precision →
  extversion d = Some version000 →
  assertVectorExtension svc VECTORS d = (Returned tt, d).
Proof.
  intros Hmin Hmax Hver. unfold assertVectorExtension, bind, gets; simpl.
  rewrite Hver, Hmin, Hmax. unfold isOlderThan, isNewerThan.
  rewrite !compare_refl. reflexivity.
Qed.

(** With an explicit maximum version the minimum is not consulted, and
    version 0.0.0 passes for both extensions. *)
Lemma assertVectorExtension_accepts_000_max (svc : Service)
    (vectorExtension : DatabaseExtension) (maxVersion : Version) (d : Database) :
  (if isVECTOR vectorExtension then maxVectorVersion svc else maxVectorsVersion svc)
  = inl maxVersion →
  (0 ≤ major maxVersion)%Z → (0 ≤ minor maxVersion)%Z → (0 ≤ patch maxVersion)%Z →
  extversion d = Some version000 →
  assertVectorExtension svc vectorExtension d = (Returned tt, d).
Proof.
  intros Hmax Hmaj Hmin Hpat Hver. unfold assertVectorExtension, bind, gets; simpl.
  rewrite Hver, Hmax, version000_not_newer by assumption. reflexivity.
Qed.

(** With a pinned precision, version 0.0.0 is turned away when the
    minimum is a later version: this is the only way it is rejected. *)
Lemma assertVectorExtension_rejects_000_below_min (svc : Service)
    (vectorExtension : DatabaseExtension) (precision : VersionType) (d : Database) :
  (if isVECTOR vectorExtension then maxVectorVersion svc else maxVectorsVersion svc)
  = inr precision →
  isOlderThan version000
    (if isVECTOR vectorExtension then minVectorVersion svc else minVectorsVersion svc)
    PATCH = true →
  extversion d = Some version000 →
  assertVectorExtension svc vectorExtension d
  = (Threw ExtensionVersionRejected, log Fatal d).
Proof.
  intros Hmax Hold Hver. unfold assertVectorExtension, bind, gets; simpl.
  rewrite Hver, Hmax, Hold. reflexivity.
Qed.

End DatabaseServiceFacts.

(** C1, evaluated.  With the field initialisers of the service and the
    extension pgvecto.rs, on PostgreSQL 14 with version 0.0.0 installed,
    [init] returns, logs nothing fatal and runs the migrations. *)
Theorem init_accepts_version_000 :
  let nightly := {| Domain.major := 0; Domain.minor := 0; Domain.patch := 0 |} in
  let database migrations :=
    {| DatabaseService.postgresVersion :=
         {| Domain.major := 14; Domain.minor := 0; Domain.patch := 0 |};
       DatabaseService.extversion := Some nightly;
       DatabaseService.availableVersion := Some nightly;
       DatabaseService.createExtensionFails := false;
       DatabaseService.migrationsRun := migrations;
       DatabaseService.logged := [] |} in
  DatabaseService.init DatabaseService.service Domain.VECTORS (database 0)
  = (Returned tt, database 1).
Proof. reflexivity. Qed.

(** ** [isValidInteger] *)

Section IsValidIntegerFacts.
Import InfraUtils.

(** An integer is its own reduced fraction. *)
Lemma Qred_inject_Z (z : Z) : Qred (inject_Z z) = inject_Z z.
Proof.
  unfold Qred, inject_Z.
  pose proof (Z.ggcd_gcd z 1) as Hg.
  pose proof (Z.ggcd_correct_divisors z 1) as Hd.
  destruct (Z.ggcd z 1) as [g [a b]]; simpl in *.
  rewrite Z.gcd_1_r in Hg. subst g. destruct Hd as [Ha Hb].
  rewrite Z.mul_1_l in Ha, Hb. subst a b. reflexivity.
Qed.

(** Equal numbers are valid together. *)
Lemma isValidInteger_strictEq (a b : Js.number) (options : IntegerOptions) :
  Js.strictEq a b = true →
  isValidInteger a options = isValidInteger b options.
Proof.
  destruct a as [p| | |], b as [q| | |]; simpl; try discriminate; try reflexivity.
  intros Heq%Qeq_bool_iff. unfold isValidInteger; simpl.
  rewrite (Qred_complete p q Heq).
  f_equal; [f_equal|]; apply eq_true_iff_eq;
    rewrite !Qle_bool_iff, Heq; reflexivity.
Qed.

(** A number is valid exactly when it is an integer between the bounds. *)
Lemma isValidInteger_spec (value : Js.number) (lo hi : Z) :
  isValidInteger value {| opt_min := Some lo; opt_max := Some hi |} = true
  ↔ ∃ z : Z, (lo ≤ z ≤ hi)%Z ∧ Js.strictEq value (Js.ofZ z) = true.
Proof.
  split.
  - unfold isValidInteger; simpl.
    intros H. apply andb_prop in H as [H Hhi]. apply andb_prop in H as [Hint Hlo].
    destruct value as [q| | |]; try discriminate Hint.
    unfold Js.isInteger, Js.geZ, Js.leZ in *.
    apply Pos.eqb_eq in Hint.
    assert (Hq : (q == inject_Z (Qnum (Qred q)))%Q).
    { rewrite <- (Qred_correct q) at 1.
      destruct (Qred q) as [n d]; simpl in *. subst d. reflexivity. }
    exists (Qnum (Qred q)). split.
    + apply Qle_bool_iff in Hlo, Hhi. rewrite Hq in Hlo, Hhi.
      rewrite <- !Zle_Qle in *. lia.
    + apply Qeq_bool_iff. exact Hq.
  - intros (z & [Hlo Hhi] & Heq).
    rewrite (isValidInteger_strictEq _ _ {| opt_min := Some lo; opt_max := Some hi |} Heq).
    unfold isValidInteger, Js.ofZ, Js.isInteger, Js.geZ, Js.leZ.
    rewrite Qred_inject_Z; simpl.
    rewrite !andb_true_iff, !Qle_bool_iff, <- !Zle_Qle. auto.
Qed.

End IsValidIntegerFacts.

(** ** The dimension of the CLIP embeddings *)

Section UpdateCLIPDimSizeFacts.
Import Domain DatabaseRepository.
Context {W : Type}.

(** [getCLIPDimSize] changes nothing, and what it returns is valid. *)
Lemma getCLIPDimSize_returned (r r' : Repository W) (dimSize : Js.number) :
  getCLIPDimSize r = (Returned dimSize, r') →
  r' = r ∧ atttypmod r = Some dimSize
  ∧ InfraUtils.isValidInteger dimSize clipDimOptions = true.
Proof.
  unfold getCLIPDimSize, bind, gets, throw, ret.
  destruct (atttypmod r) as [d|]; [|discriminate].
  destruct (InfraUtils.isValidInteger d clipDimOptions) eqn:Hvalid; simpl;
    [|discriminate].
  intros [= -> ->]. auto.
Qed.

End UpdateCLIPDimSizeFacts.

(** C7. A [dimSize] that is not an integer in [1, 65536] makes
    [updateCLIPDimSize] throw the validation error with the repository,
    its catalog and the list of executed statements, unchanged; and a
    [dimSize] equal to the dimension read from the catalog makes it return
    with the repository unchanged: no table is dropped or created and no
    index is built. *)
Theorem updateCLIPDimSize_validates_and_skips {W : Type}
    (vectorExtension : Domain.DatabaseExtension) (dimSize : Js.number)
    (r : DatabaseRepository.Repository W) :
  ((¬ ∃ z : Z, (1 ≤ z ≤ 65536)%Z ∧ Js.strictEq dimSize (Js.ofZ z) = true) →
   DatabaseRepository.updateCLIPDimSize vectorExtension dimSize r
   = (Threw (InvalidCLIPDimSize dimSize), r))
  ∧ (∀ curDimSize : Js.number,
       DatabaseRepository.getCLIPDimSize r = (Returned curDimSize, r) →
       Js.strictEq curDimSize dimSize = true →
       DatabaseRepository.updateCLIPDimSize vectorExtension dimSize r
       = (Returned tt, r)).
Proof.
  split.
  - intros Hinvalid. unfold DatabaseRepository.updateCLIPDimSize.
    destruct (InfraUtils.isValidInteger dimSize DatabaseRepository.clipDimOptions)
      eqn:Hvalid; [|reflexivity].
    exfalso. apply Hinvalid.
    apply (isValidInteger_spec dimSize 1 65536). exact Hvalid.
  - intros curDimSize Hcur Heq.
    destruct (getCLIPDimSize_returned _ _ _ Hcur) as (_ & _ & Hvalid).
    rewrite (isValidInteger_strictEq _ _ _ Heq) in Hvalid.
    unfold DatabaseRepository.updateCLIPDimSize.
    rewrite Hvalid. cbn [negb]. unfold bind at 1.
    rewrite Hcur, Heq. reflexivity.
Qed.

(** The theorem at a catalog of dimension 512: the dimension 0 is refused
    and the dimension 512 changes nothing. *)
Lemma updateCLIPDimSize_validates_and_skips_witness :
  let r : DatabaseRepository.Repository unit :=
    {| DatabaseRepository.atttypmod := Some (Js.ofZ 512);
       DatabaseRepository.executed := [];
       DatabaseRepository.asyncLock := ∅;
       DatabaseRepository.advisoryLocks := [];
       DatabaseRepository.queryRunners := [];
       DatabaseRepository.nextQueryRunner := 0;
       DatabaseRepository.rejected := (λ _, false);
       DatabaseRepository.world := tt |} in
  DatabaseRepository.updateCLIPDimSize Domain.VECTORS (Js.ofZ 0) r
  = (Threw (InvalidCLIPDimSize (Js.ofZ 0)), r)
  ∧ DatabaseRepository.updateCLIPDimSize Domain.VECTORS (Js.ofZ 512) r
    = (Returned tt, r).
Proof.
  intros r. split.
  - apply (proj1 (updateCLIPDimSize_validates_and_skips Domain.VECTORS (Js.ofZ 0) r)).
    intros (z & Hz & Heq). apply Qeq_bool_iff in Heq.
    unfold Qeq in Heq; simpl in Heq. lia.
  - apply (proj2 (updateCLIPDimSize_validates_and_skips Domain.VECTORS (Js.ofZ 512) r)
             (Js.ofZ 512)); reflexivity.
Defined.

(** ** Locks *)

Section WithLockFacts.
Import Domain DatabaseRepository.
Context {W : Type}.



(** Unlocking gives up the hold taken last. *)
Lemma unlockOnce_head (key : Z) (session : nat) (l : list (Z * nat)) :
  unlockOnce key session ((key, session) :: l) = l.
Proof. simpl. rewrite Z.eqb_refl, Nat.eqb_refl. reflexivity. Qed.


(** No session holds the advisory lock: [pg_advisory_lock] does not wait. *)
Lemma advisoryHeld_false_no_other (lock : DatabaseLock) (queryRunner : nat)
    (l : list (Z * nat)) :
  existsb (λ e, (e.1 =? lockId lock)%Z) l = false →
  existsb (λ e, (e.1 =? lockId lock)%Z && negb (e.2 =? queryRunner)) l = false.
Proof.
  induction l as [|e l IH]; simpl; [reflexivity|].
  intros H. apply orb_false_elim in H as [He Hl].
  rewrite He, IH by exact Hl. reflexivity.
Qed.

(** Freeing the key restores the process-local locks. *)
Lemma asyncLock_freed (key : string) (queue : gset string) :
  key ∉ queue → ({[key]} ∪ queue) ∖ {[key]} = queue.
Proof.
  intros Hfree. apply set_eq. intros x.
  rewrite elem_of_difference, elem_of_union, !elem_of_singleton. split.
  - intros [[Hx|Hx] Hne]; [contradiction | exact Hx].
  - intros Hx. split; [right; exact Hx | intros ->; contradiction].
Qed.



(** While the process-local lock is taken, a second [withLock] waits and
    its callback does not run. *)
Lemma withLock_waits_while_busy {R : Type} (lock : DatabaseLock)
    (callback : Repository W → Exc R * W) (r : Repository W) :
  isBusy lock r = true → withLock lock callback r = (Pending, r).
Proof.
  intros Hbusy. unfold withLock, acquire. unfold isBusy in Hbusy.
  rewrite Hbusy. reflexivity.
Qed.

End WithLockFacts.




(** ** Smart info and its embedding *)

Section UpsertFacts.
Import SmartInfoRepository.
Context {I : Type}.




(** With both, and a successful write of the record, [upsert] goes on to
    write the embedding. *)
Lemma upsert_with_embedding (repositoryUpsert : SmartInfoEntity → I → Exc I)
    (smartInfo : SmartInfoEntity) (id : string) (embedding : Embedding)
    (t : Tables I) (i : I) :
  assetId smartInfo = Some id → id ≠ "" →
  repositoryUpsert smartInfo (smart_info t) = Returned i →
  upsert repositoryUpsert smartInfo (Some embedding) t
  = upsertEmbedding id embedding
      {| smart_info := i; assetIds := assetIds t; dimSize := dimSize t;
         float4 := float4 t; smart_search := smart_search t |}.
Proof.
  intros Hid Hne Hrepo. unfold upsert, bind, upsertSmartInfo.
  rewrite Hrepo, Hid. simpl.
  destruct (String.eqb_spec id ""); [contradiction | reflexivity].
Qed.

(** The embeddings change only when [upsertEmbedding] is reached. *)
Lemma upsertEmbedding_outcome (id : string) (embedding : Embedding) (t : Tables I) :
  upsertEmbedding id embedding t
  = if bool_decide (id ∈ assetIds t)
       && (0 <? length embedding) && (length embedding =? dimSize t)
    then
      (Returned tt,
       {| smart_info := smart_info t; assetIds := assetIds t; dimSize := dimSize t;
          float4 := float4 t;
          smart_search := <[id := map (float4 t) embedding]> (smart_search t) |})
    else (Threw (QueryFailed "smart_search"), t).
Proof. reflexivity. Qed.

End UpsertFacts.




(** ** Face search *)

Section SearchFacesFacts.
Import SmartInfoRepository.

Lemma filter_length_bound {A : Type} (p : A → bool) (l : list A) :
  length (List.filter p l) ≤ length l.
Proof.
  induction l as [|x l IH]; simpl; [lia|]. destruct (p x); simpl; lia.
Qed.

Section Ordering.
Context {A : Type} (key : A → Q).

Lemma insertBy_elements (x : A) (l : list A) (P : A → Prop) :
  P x → Forall P l → Forall P (insertBy key x l).
Proof.
  intros Hx. induction 1 as [|y l Hy Hl IH]; simpl.
  - repeat constructor; exact Hx.
  - destruct (Qle_bool (key x) (key y)); repeat constructor; assumption.
Qed.

Lemma insertBy_sorted (x : A) (l : list A) :
  StronglySorted (ascending key) l → StronglySorted (ascending key) (insertBy key x l).
Proof.
  induction 1 as [|y l Hsorted IH Hy]; simpl.
  - repeat constructor.
  - destruct (Qle_bool (key x) (key y)) eqn:Hle.
    + apply Qle_bool_iff in Hle. constructor; [constructor; assumption|].
      constructor; [exact Hle|].
      eapply Forall_impl; [exact Hy|]. intros z Hz. unfold ascending in *.
      eapply Qle_trans; eassumption.
    + constructor; [exact IH|].
      apply insertBy_elements; [|exact Hy].
      unfold ascending. apply Qlt_le_weak, Qnot_le_lt.
      intros Hxy. apply Qle_bool_iff in Hxy. congruence.
Qed.

(** [orderBy] sorts, and keeps the rows. *)
Lemma orderBy_sorted (l : list A) : StronglySorted (ascending key) (orderBy key l).
Proof.
  induction l as [|x l IH]; simpl; [constructor | apply insertBy_sorted, IH].
Qed.

Lemma orderBy_elements (l : list A) (P : A → Prop) :
  Forall P l → Forall P (orderBy key l).
Proof.
  induction 1 as [|x l Hx Hl IH]; simpl; [constructor | apply insertBy_elements; assumption].
Qed.

Lemma insertBy_length (x : A) (l : list A) : length (insertBy key x l) = S (length l).
Proof.
  induction l as [|y l IH]; simpl; [reflexivity|].
  destruct (Qle_bool (key x) (key y)); simpl; [|rewrite IH]; reflexivity.
Qed.

Lemma orderBy_length (l : list A) : length (orderBy key l) = length l.
Proof.
  induction l as [|x l IH]; simpl; [reflexivity|].
  rewrite insertBy_length, IH. reflexivity.
Qed.

End Ordering.

Lemma firstn_elements {A : Type} (x : A) (n : nat) (l : list A) :
  In x (firstn n l) → In x l.
Proof.
  revert n. induction l as [|y l IH]; intros [|n]; simpl; try tauto.
  intros [Hx|Hx]; [left; exact Hx | right; exact (IH n Hx)].
Qed.

Lemma sorted_firstn {A : Type} (R : A → A → Prop) (n : nat) (l : list A) :
  StronglySorted R l → StronglySorted R (firstn n l).
Proof.
  intros Hsorted. revert n.
  induction Hsorted as [|x l Hsorted IH Hx]; intros [|n]; simpl; try constructor.
  - apply IH.
  - rewrite List.Forall_forall in *. intros y Hy. apply Hx.
    eapply firstn_elements; exact Hy.
Qed.

Lemma sorted_filter {A : Type} (R : A → A → Prop) (p : A → bool) (l : list A) :
  StronglySorted R l → StronglySorted R (List.filter p l).
Proof.
  induction 1 as [|x l Hsorted IH Hx]; simpl; [constructor|].
  destruct (p x); [|exact IH]. constructor; [exact IH|].
  rewrite List.Forall_forall in *. intros y Hy. apply Hx.
  apply filter_In in Hy. tauto.
Qed.

Lemma sorted_map {A B : Type} (f : A → B) (R : B → B → Prop) (l : list A) :
  StronglySorted (λ x y, R (f x) (f y)) l → StronglySorted R (map f l).
Proof.
  induction 1 as [|x l Hsorted IH Hx]; simpl; constructor; [exact IH|].
  rewrite List.Forall_forall in *. intros y Hy.
  apply in_map_iff in Hy as (z & <- & Hz). apply Hx, Hz.
Qed.

(** A positive integer is truthy and passes the validation: the limit is
    the larger of it and 64. *)
Lemma candidateLimit_valid (n : Js.number) :
  InfraUtils.isValidInteger n
    {| InfraUtils.opt_min := Some 1%Z; InfraUtils.opt_max := None |} = true →
  candidateLimit (Some n) = Returned (Some (Z.max (Js.toZ n) 64)).
Proof.
  intros Hvalid. unfold candidateLimit, numResultsGiven.
  assert (Htruthy : Js.truthy n = true).
  { unfold InfraUtils.isValidInteger in Hvalid; simpl in Hvalid.
    apply andb_prop in Hvalid as [Hvalid _]. apply andb_prop in Hvalid as [_ Hge].
    destruct n as [q| | |]; simpl in *; try discriminate; try reflexivity.
    apply negb_true_iff. apply not_true_is_false. intros Hzero.
    apply Qeq_bool_iff in Hzero. apply Qle_bool_iff in Hge.
    rewrite Hzero in Hge. unfold Qle in Hge; simpl in Hge. lia. }
  rewrite Htruthy, Hvalid. reflexivity.
Qed.

(** The candidates are in ascending order of distance, at most [limit]
    of them, faces of assets that are not soft-deleted and are owned by
    the users asked for and, with [hasPerson], linked to a person. *)
Lemma candidates_ranked (distanceTo : Embedding → Embedding → Q)
    (faces : list AssetFaceEntity) (s : FaceEmbeddingSearch) (limit : option Z) :
  let cte := candidates distanceTo faces s limit in
  StronglySorted (ascending (λ f, distanceTo (faceEmbedding f) (embedding s))) cte
  ∧ (∀ n, limit = Some n → length cte ≤ Z.to_nat n)
  ∧ (hasPerson s = Some true → Forall (λ f, column "personId" f ≠ Js.VNull) cte)
  ∧ Forall (λ f, ∃ a, asset f = Some a ∧ assetDeletedAt a = None
                      ∧ assetOwnerId a ∈ userIds s) cte.
Proof.
  intros cte. unfold cte, candidates.
  set (key := λ f, distanceTo (faceEmbedding f) (embedding s)).
  set (owned := List.filter _ faces).
  set (linked := if Js.truthyFlag (hasPerson s) then _ else owned).
  set (joined := λ f, ∃ a, asset f = Some a ∧ assetDeletedAt a = None
                           ∧ assetOwnerId a ∈ userIds s).
  assert (Howned : Forall joined owned).
  { apply List.Forall_forall. intros f Hf. apply filter_In in Hf as [_ Hf].
    unfold joined. destruct (asset f) as [a|]; [|discriminate].
    exists a. split; [reflexivity|].
    apply andb_prop in Hf as [Hlive Howner].
    apply bool_decide_eq_true in Hlive, Howner. auto. }
  assert (Hlinked : Forall joined linked).
  { unfold linked. destruct (Js.truthyFlag (hasPerson s)); [|exact Howned].
    rewrite List.Forall_forall in *. intros f Hf. apply filter_In in Hf as [Hf _]. auto. }
  assert (Hperson : hasPerson s = Some true →
            Forall (λ f, column "personId" f ≠ Js.VNull) linked).
  { intros Hhas. unfold linked. rewrite Hhas. simpl.
    apply List.Forall_forall. intros f Hf. apply filter_In in Hf as [_ Hf].
    destruct (column "personId" f); [discriminate Hf | discriminate ..]. }
  split; [|split; [|split]].
  - destruct limit; [apply sorted_firstn|]; apply orderBy_sorted.
  - intros n ->. apply firstn_le_length.
  - intros Hhas. specialize (Hperson Hhas).
    apply (orderBy_elements key) in Hperson.
    destruct limit; [|exact Hperson].
    rewrite List.Forall_forall in *. intros f Hf. apply Hperson.
    eapply firstn_elements; exact Hf.
  - apply (orderBy_elements key) in Hlinked.
    destruct limit; [|exact Hlinked].
    rewrite List.Forall_forall in *. intros f Hf. apply Hlinked.
    eapply firstn_elements; exact Hf.
Qed.

(** For a valid [numResults] and at least one user id, [searchFaces]
    returns at most [max(numResults, 64)] rows, closest first, each within
    [maxDistance] and without the embedding among its columns. *)
Lemma searchFaces_valid_numResults (distanceTo : Embedding → Embedding → Q)
    (ownColumnNames : list string) (faces : list AssetFaceEntity)
    (s : FaceEmbeddingSearch) (n : Js.number) :
  numResults s = Some n →
  InfraUtils.isValidInteger n
    {| InfraUtils.opt_min := Some 1%Z; InfraUtils.opt_max := None |} = true →
  userIds s ≠ [] →
  ∃ rows,
    (searchFaces distanceTo ownColumnNames faces s).1 = Returned rows
    ∧ length rows ≤ Z.to_nat (Z.max (Js.toZ n) 64)
    ∧ StronglySorted Qle (map distance rows)
    ∧ Forall (λ row, ∃ m, maxDistance s = Some m ∧ (distance row <= m)%Q) rows
    ∧ Forall (λ row, ¬ In "embedding" (map fst (face row))) rows.
Proof.
  intros Hn Hvalid Husers. unfold searchFaces.
  rewrite Hn, (candidateLimit_valid n Hvalid).
  destruct (userIds s) as [|u us] eqn:Hu; [congruence|]. cbn [fst].
  eexists. split; [reflexivity|].
  destruct (candidates_ranked distanceTo faces s (Some (Z.max (Js.toZ n) 64)))
    as (Hsorted & Hlen & _ & _).
  split; [|split; [|split]].
  - etransitivity; [apply filter_length_bound|].
    rewrite length_map. apply Hlen. reflexivity.
  - apply sorted_map, sorted_filter.
    apply (sorted_map _ (λ x y, (distance x <= distance y)%Q)). exact Hsorted.
  - apply List.Forall_forall. intros row Hrow. apply filter_In in Hrow as [_ Hrow].
    unfold withinDistance in Hrow. destruct (maxDistance s) as [m|]; [|discriminate].
    exists m. split; [reflexivity|]. apply Qle_bool_iff. exact Hrow.
  - apply List.Forall_forall. intros row Hrow. apply filter_In in Hrow as [Hrow _].
    apply in_map_iff in Hrow as (f & <- & _). simpl.
    rewrite map_map. simpl. rewrite map_id. unfold faceColumns.
    intros Hin. apply filter_In in Hin as [_ Hin]. discriminate Hin.
Qed.

End SearchFacesFacts.

(** C6, evaluated.  With [numResults = 0] the test [if (numResults)]
    fails: the number is not validated and the candidate query gets no
    limit.  Over 65 faces of the user, all within [maxDistance],
    [searchFaces] returns 65 rows, more than [max(0, 64) = 64]; the number
    [-1] is refused. *)
Theorem searchFaces_numResults_zero_unlimited :
  let aFace :=
    {| SmartInfoRepository.ownColumns :=
         [("id", Js.VStr "face"); ("personId", Js.VNull); ("embedding", Js.VVec [1%Q])];
       SmartInfoRepository.asset :=
         Some {| SmartInfoRepository.assetOwnerId := "user";
                 SmartInfoRepository.assetDeletedAt := None |} |} in
  let search :=
    {| SmartInfoRepository.userIds := ["user"];
       SmartInfoRepository.embedding := [1%Q];
       SmartInfoRepository.numResults := Some (Js.ofZ 0);
       SmartInfoRepository.maxDistance := Some (3 # 5)%Q;
       SmartInfoRepository.hasPerson := None |} in
  let result :=
    SmartInfoRepository.searchFaces (λ _ _, 0%Q) ["id"; "personId"; "embedding"]
      (repeat aFace 65) search in
  SmartInfoRepository.candidateLimit (Some (Js.ofZ 0)) = Returned None
  ∧ SmartInfoRepository.candidateLimit (Some (Js.ofZ (-1)))
    = Threw (InvalidNumResults (Js.ofZ (-1)))
  ∧ (∃ rows, result.1 = Returned rows ∧ length rows = 65)
  ∧ Z.to_nat (Z.max (Js.toZ (Js.ofZ 0)) 64) = 64
  ∧ result.2 = [SmartInfoRepository.EnablePrefilter; SmartInfoRepository.SearchModeBasic].
Proof.
  intros aFace search result.
  split; [reflexivity|]. split; [reflexivity|].
  split; [|split; reflexivity].
  eexists. split; [vm_compute; reflexivity | reflexivity].
Qed.

(* ================================================================== *)
(** * Part III. Further properties of the code                         *)
(* ================================================================== *)

(** ** Pagination *)

Lemma firstn_then_next {A : Type} (n m : nat) (l : list A) :
  firstn n l ++ firstn m (skipn n l) = firstn (n + m) l.
Proof.
  revert l. induction n as [|n IH]; intros l; [reflexivity|].
  destruct l as [|x l]; simpl.
  - destruct m; reflexivity.
  - rewrite IH. reflexivity.
Qed.

(** X1. Consecutive pages fit together: the page of [n] rows after [k] followed
    by the page of [m] rows after [k + n] is the page of [n + m] rows after
    [k]; and a page announces a next page exactly when the following page,
    asked for with at least one row, is not empty. *)
Theorem paginate_consecutive_pages {Entity : Type}
    (repository : InfraUtils.Repository Entity)
    (searchOptions : option (Entity → bool)) (n m k : nat) :
  let page take skip :=
    (InfraUtils.paginate repository
       {| InfraUtils.take := take; InfraUtils.skip := Some skip |} searchOptions).1 in
  InfraUtils.items (page n k) ++ InfraUtils.items (page m (k + n))
  = InfraUtils.items (page (n + m) k)
  ∧ (InfraUtils.hasNextPage (page n k) = true
     ↔ InfraUtils.items (page (S m) (k + n)) ≠ []).
Proof.
  intros page.
  set (matching :=
    match searchOptions with
    | Some p => List.filter p (InfraUtils.table repository)
    | None => InfraUtils.table repository
    end).
  assert (Hitems : ∀ take skip,
    InfraUtils.items (page take skip) = firstn take (skipn skip matching)).
  { intros take skip. unfold page. rewrite paginate_find. simpl.
    rewrite find_paginate. apply firstn_succ_firstn. }
  assert (Hnext : ∀ take skip,
    InfraUtils.hasNextPage (page take skip) = true ↔ take < length matching - skip).
  { intros take skip. unfold page. rewrite paginate_find. cbn [fst].
    rewrite paginationHelper_hasNextPage, find_paginate; simpl.
    fold matching. rewrite length_firstn, length_skipn. lia. }
  split.
  - rewrite !Hitems. rewrite (Nat.add_comm k n), <- skipn_skipn.
    apply firstn_then_next.
  - rewrite Hnext, Hitems. split.
    + intros Hlt Hnil. apply take_nil_inv in Hnil as [Hnil | Hnil]; [discriminate|].
      apply (f_equal (@length Entity)) in Hnil. rewrite length_skipn in Hnil.
      simpl in Hnil. lia.
    + intros Hne. destruct (Nat.lt_ge_cases n (length matching - k)) as [Hlt|Hge];
        [exact Hlt|].
      exfalso. apply Hne. rewrite skipn_all2; [reflexivity | lia].
Qed.

(** X2. With [mode = LIMIT_OFFSET] on a query without paging of its own,
    [paginatedBuilder] returns the rows [skip .. skip + take) and announces
    a next page exactly when more than [take] rows follow the skipped
    ones. *)
Theorem paginatedBuilder_limit_offset_page {Entity : Type} (rows : list Entity)
    (take skip : nat) :
  let page :=
    InfraUtils.paginatedBuilder rows InfraUtils.noPaging
      {| InfraUtils.pb_take := take; InfraUtils.pb_skip := skip;
         InfraUtils.pb_mode := Some InfraUtils.LIMIT_OFFSET |} in
  InfraUtils.items page = firstn take (skipn skip rows)
  ∧ length (InfraUtils.items page) = Nat.min (length rows - skip) take
  ∧ (InfraUtils.hasNextPage page = true ↔ take < length rows - skip).
Proof.
  intros page.
  assert (Hpage : page
    = InfraUtils.paginationHelper (firstn (take + 1) (skipn skip rows)) take).
  { unfold page. rewrite paginatedBuilder_limit_offset, paginate_find. cbn [fst].
    rewrite find_paginate. reflexivity. }
  assert (Hitems : InfraUtils.items page = firstn take (skipn skip rows)).
  { rewrite Hpage. simpl. apply firstn_succ_firstn. }
  split; [exact Hitems|]. split.
  - rewrite Hitems, length_firstn, length_skipn. lia.
  - rewrite Hpage, paginationHelper_hasNextPage.
    rewrite length_firstn, length_skipn. lia.
Qed.

(** ** [isValidInteger] *)

(** X3. With the bounds that are given, and the safe integers for those that
    are not, [isValidInteger] accepts exactly the integers between the
    bounds: fractions, [NaN] and the infinities are refused. *)
Theorem isValidInteger_characterised (value : Js.number)
    (options : InfraUtils.IntegerOptions) :
  let lo := default Js.MIN_SAFE_INTEGER (InfraUtils.opt_min options) in
  let hi := default Js.MAX_SAFE_INTEGER (InfraUtils.opt_max options) in
  (InfraUtils.isValidInteger value options = true
   ↔ ∃ z : Z, (lo ≤ z ≤ hi)%Z ∧ Js.strictEq value (Js.ofZ z) = true)
  ∧ InfraUtils.isValidInteger Js.NaN options = false
  ∧ InfraUtils.isValidInteger Js.PosInfinity options = false
  ∧ InfraUtils.isValidInteger Js.NegInfinity options = false
  ∧ (∀ z : Z, InfraUtils.isValidInteger (Js.Num (2 * z + 1 # 2)) options = false).
Proof.
  intros lo hi. split; [|split; [|split; [|split]]]; try reflexivity.
  - rewrite <- (isValidInteger_spec value lo hi). reflexivity.
  - intros z. unfold InfraUtils.isValidInteger.
    replace (Js.isInteger (Js.Num (2 * z + 1 # 2))) with false; [reflexivity|].
    symmetry. unfold Js.isInteger. apply Pos.eqb_neq. intros Hden.
    assert (Hq : ((2 * z + 1 # 2) == inject_Z (Qnum (Qred (2 * z + 1 # 2))))%Q).
    { rewrite <- (Qred_correct (2 * z + 1 # 2)) at 1.
      destruct (Qred (2 * z + 1 # 2)) as [num den]; simpl in *. subst den. reflexivity. }
    unfold Qeq in Hq; simpl in Hq. lia.
Qed.

(** ** [searchAssetBuilder]: the sub-filters *)

Section SearchBuilderMore.
Import SearchBuilder.


Lemma joinCount_app aliasName js1 js2 :
  joinCount aliasName (js1 ++ js2) = joinCount aliasName js1 + joinCount aliasName js2.
Proof. unfold joinCount. rewrite List.filter_app, length_app. reflexivity. Qed.


(** The joins of an accepted filter on a builder without joins. *)
Lemma joins_fresh_builder (columns relations : list string) (aliasName : string)
    (o : AssetSearchBuilderOptions) :
  accepted (createQueryBuilder columns relations aliasName) o = true →
  searchAssetBuilder (createQueryBuilder columns relations aliasName) o
  = (Returned tt, extended (createQueryBuilder columns relations aliasName) o)
  ∧ joins (extended (createQueryBuilder columns relations aliasName) o)
    = exifJoins aliasName o ++ relationJoins aliasName o.
Proof.
  intros Haccepted. split; [apply searchAssetBuilder_accepted, Haccepted | reflexivity].
Qed.

End SearchBuilderMore.





(** X6. The relation sub-filter.  On a fresh builder that finds the keys and
    relations of the filter, [searchAssetBuilder] returns, having joined
    the face detections once when [withFaces] or [withPeople] is set (once
    also when both are), the people when [withPeople] is set, the smart
    info when [withSmartInfo] is set and the stack when [withStacked] is
    set. *)
Theorem searchAssetBuilder_relation_joins (columns relations : list string)
    (aliasName : string) (o : SearchBuilder.AssetSearchBuilderOptions) :
  let b := SearchBuilder.createQueryBuilder columns relations aliasName in
  SearchBuilder.accepted b o = true →
  let result := SearchBuilder.searchAssetBuilder b o in
  let js := SearchBuilder.joins result.2 in
  let set (f : SearchBuilder.SearchRelationOptions → option bool) :=
    match SearchBuilder.relation o with
    | Some r => Js.truthyFlag (f r)
    | None => false
    end in
  result.1 = Returned tt
  ∧ SearchBuilder.joinCount "faces" js
    = (if set SearchBuilder.withFaces || set SearchBuilder.withPeople then 1 else 0)
  ∧ SearchBuilder.joinCount "person" js
    = (if set SearchBuilder.withPeople then 1 else 0)
  ∧ SearchBuilder.joinCount "smartInfo" js
    = (if set SearchBuilder.withSmartInfo then 1 else 0)
  ∧ SearchBuilder.joinCount "stack" js
    = (if set SearchBuilder.withStacked then 1 else 0)
  ∧ (In (SearchBuilder.LeftJoinAndSelect aliasName "faces" "faces") js
     ↔ set SearchBuilder.withFaces || set SearchBuilder.withPeople = true).
Proof.
  intros b Haccepted result js set.
  destruct (joins_fresh_builder columns relations aliasName o Haccepted) as [Hrun Hjoins].
  unfold js, result, b. rewrite Hrun. cbn [fst snd]. rewrite Hjoins.
  split; [reflexivity|].
  unfold set, SearchBuilder.exifJoins, SearchBuilder.relationJoins.
  destruct (SearchBuilder.exif o) as [e|];
    [destruct (0 <? length (SearchBuilder.exifWhere e))|];
    (destruct (SearchBuilder.relation o) as [r|];
     [destruct (Js.truthyFlag (SearchBuilder.withExif r)),
        (Js.truthyFlag (SearchBuilder.withFaces r)),
        (Js.truthyFlag (SearchBuilder.withPeople r)),
        (Js.truthyFlag (SearchBuilder.withSmartInfo r)),
        (Js.truthyFlag (SearchBuilder.withStacked r))|]);
    simpl; (split; [|split; [|split; [|split]]]); try reflexivity;
    (split; [intros H; repeat (destruct H as [H|H]; try discriminate H);
             try contradiction; reflexivity
            | intros H; try discriminate H; auto 6]).
Qed.

(** The theorem at a filter that asks for the faces and the stack. *)
Lemma searchAssetBuilder_relation_joins_witness :
  let o :=
    {| SearchBuilder.date := None; SearchBuilder.idOptions := None;
       SearchBuilder.exif := None; SearchBuilder.path := None;
       SearchBuilder.relation :=
         Some {| SearchBuilder.withExif := None; SearchBuilder.withSmartInfo := None;
                 SearchBuilder.withFaces := Some true; SearchBuilder.withPeople := None;
                 SearchBuilder.withStacked := Some true |};
       SearchBuilder.status := None |} in
  (SearchBuilder.searchAssetBuilder
     (SearchBuilder.createQueryBuilder ["id"] ["exifInfo"; "faces"; "stack"] "asset") o).1
  = Returned tt.
Proof.
  intros o.
  exact (proj1
    (searchAssetBuilder_relation_joins ["id"] ["exifInfo"; "faces"; "stack"] "asset" o
       eq_refl)).
Defined.

(** X7. The motion flag.  When the builder finds the keys and relations of
    the filter, the where-objects [searchAssetBuilder] adds hold exactly
    one "live-photo video is not null" predicate when [status.isMotion] is
    true, and none otherwise. *)
Theorem searchAssetBuilder_isMotion_predicate (b : SearchBuilder.SelectQueryBuilder)
    (o : SearchBuilder.AssetSearchBuilderOptions) :
  SearchBuilder.accepted b o = true →
  let result := SearchBuilder.searchAssetBuilder b o in
  result.1 = Returned tt
  ∧ ∃ added : list SearchBuilder.WhereObject,
      SearchBuilder.wheres result.2 = SearchBuilder.wheres b ++ added
      ∧ SearchBuilder.notNullCount "livePhotoVideoId" added
        = match SearchBuilder.status o with
          | Some s => if Js.truthyFlag (SearchBuilder.isMotion s) then 1 else 0
          | None => 0
          end.
Proof.
  intros Haccepted result. unfold result.
  rewrite (searchAssetBuilder_accepted b o Haccepted).
  split; [reflexivity|]. exists (SearchBuilder.whereObjects o).
  split; [reflexivity|].
  rewrite notNullCount_whereObjects.
  destruct (SearchBuilder.status o) as [s|]; [|reflexivity].
  destruct (SearchBuilder.encodedWanted o s), (Js.truthyFlag (SearchBuilder.isMotion s));
    reflexivity.
Qed.

(** The theorem at a filter for live photos. *)
Lemma searchAssetBuilder_isMotion_predicate_witness :
  let s :=
    {| SearchBuilder.isArchived := None; SearchBuilder.isEncoded := None;
       SearchBuilder.isExternal := None; SearchBuilder.isFavorite := None;
       SearchBuilder.isMotion := Some true; SearchBuilder.isOffline := None;
       SearchBuilder.isReadOnly := None; SearchBuilder.isVisible := None;
       SearchBuilder.type := None; SearchBuilder.withArchived := None;
       SearchBuilder.withDeleted := None |} in
  let o :=
    {| SearchBuilder.date := None; SearchBuilder.idOptions := None;
       SearchBuilder.exif := None; SearchBuilder.path := None;
       SearchBuilder.relation := None; SearchBuilder.status := Some s |} in
  (SearchBuilder.searchAssetBuilder
     (SearchBuilder.createQueryBuilder ["id"; "livePhotoVideoId"] [] "asset") o).1
  = Returned tt.
Proof.
  intros s o.
  exact (proj1
    (searchAssetBuilder_isMotion_predicate
       (SearchBuilder.createQueryBuilder ["id"; "livePhotoVideoId"] [] "asset") o eq_refl)).
Defined.

(** X8. [searchAssetBuilder] only adds to a builder, whether it returns or
    throws: the alias stays, the where-objects and joins it had stay in
    front, and a builder that includes soft-deleted rows still does; with
    no option at all it returns the builder as it was. *)
Theorem searchAssetBuilder_extends_builder (b : SearchBuilder.SelectQueryBuilder)
    (o : SearchBuilder.AssetSearchBuilderOptions) :
  let b' := (SearchBuilder.searchAssetBuilder b o).2 in
  SearchBuilder.alias b' = SearchBuilder.alias b
  ∧ (∃ ws, SearchBuilder.wheres b' = SearchBuilder.wheres b ++ ws)
  ∧ (∃ js, SearchBuilder.joins b' = SearchBuilder.joins b ++ js)
  ∧ (SearchBuilder.includesDeleted b = true → SearchBuilder.includesDeleted b' = true)
  ∧ SearchBuilder.searchAssetBuilder b
      {| SearchBuilder.date := None; SearchBuilder.idOptions := None;
         SearchBuilder.exif := None; SearchBuilder.path := None;
         SearchBuilder.relation := None; SearchBuilder.status := None |}
    = (Returned tt, b).
Proof.
  intros b'. unfold b'.
  destruct (grows_searchAssetBuilder o b) as (Halias & Hwheres & Hjoins & Hdeleted).
  repeat (split; [assumption|]). reflexivity.
Qed.

(** The theorem at a builder that already includes soft-deleted rows and a
    filter that excludes them: they stay included. *)
Lemma searchAssetBuilder_extends_builder_witness :
  SearchBuilder.includesDeleted
    (SearchBuilder.searchAssetBuilder
       (SearchBuilder.setWithDeleted
          (SearchBuilder.createQueryBuilder ["id"; "deletedAt"] [] "asset"))
       {| SearchBuilder.date := None; SearchBuilder.idOptions := None;
          SearchBuilder.exif := None; SearchBuilder.path := None;
          SearchBuilder.relation := None;
          SearchBuilder.status :=
            Some {| SearchBuilder.isArchived := None; SearchBuilder.isEncoded := None;
                    SearchBuilder.isExternal := None; SearchBuilder.isFavorite := None;
                    SearchBuilder.isMotion := None; SearchBuilder.isOffline := None;
                    SearchBuilder.isReadOnly := None; SearchBuilder.isVisible := None;
                    SearchBuilder.type := None; SearchBuilder.withArchived := None;
                    SearchBuilder.withDeleted := Some false |} |}).2
  = true.
Proof.
  apply searchAssetBuilder_extends_builder. reflexivity.
Defined.



(** ** The start-up sequence: what [init] does on each path *)

(** X13. On a PostgreSQL older than the minimum, [init] throws before anything
    else happens: no extension is created, nothing is logged and no
    migration runs. *)
Theorem init_rejects_old_postgresql (svc : DatabaseService.Service)
    (vectorExtension : Domain.DatabaseExtension) (d : DatabaseService.Database) :
  (Domain.major (DatabaseService.postgresVersion d)
   < DatabaseService.minPostgresVersion svc)%Z →
  DatabaseService.init svc vectorExtension d
  = (Threw (PostgresTooOld (Domain.major (DatabaseService.postgresVersion d))
              (DatabaseService.minPostgresVersion svc)), d).
Proof.
  intros Hold. unfold DatabaseService.init, DatabaseService.assertPostgresql,
    bind, gets, throw; simpl.
  destruct (Z.ltb_spec (Domain.major (DatabaseService.postgresVersion d))
              (DatabaseService.minPostgresVersion svc)); [reflexivity | lia].
Qed.

(** The theorem at PostgreSQL 13. *)
Lemma init_rejects_old_postgresql_witness :
  let d :=
    {| DatabaseService.postgresVersion :=
         {| Domain.major := 13; Domain.minor := 0; Domain.patch := 0 |};
       DatabaseService.extversion := None;
       DatabaseService.availableVersion :=
         Some {| Domain.major := 0; Domain.minor := 5; Domain.patch := 0 |};
       DatabaseService.createExtensionFails := false;
       DatabaseService.migrationsRun := 0;
       DatabaseService.logged := [] |} in
  DatabaseService.init DatabaseService.service Domain.VECTOR d
  = (Threw (PostgresTooOld 13 14), d).
Proof.
  intros d. apply (init_rejects_old_postgresql DatabaseService.service Domain.VECTOR d).
  simpl. lia.
Defined.



(** X16. With an explicit maximum version, [assertVectorExtension] does not
    read the minimum versions: two services with the same maxima give the
    same verdict on every database. *)
Theorem assertVectorExtension_explicit_max_ignores_min
    (svc svc' : DatabaseService.Service)
    (vectorExtension : Domain.DatabaseExtension) (maxVersion : Domain.Version)
    (d : DatabaseService.Database) :
  DatabaseService.maxVectorVersion svc = DatabaseService.maxVectorVersion svc' →
  DatabaseService.maxVectorsVersion svc = DatabaseService.maxVectorsVersion svc' →
  (if Domain.isVECTOR vectorExtension
   then DatabaseService.maxVectorVersion svc
   else DatabaseService.maxVectorsVersion svc) = inl maxVersion →
  DatabaseService.assertVectorExtension svc vectorExtension d
  = DatabaseService.assertVectorExtension svc' vectorExtension d.
Proof.
  intros Hv Hvs Hmax. unfold DatabaseService.assertVectorExtension, bind, gets.
  destruct (DatabaseService.extversion d) as [version|]; [|reflexivity].
  rewrite <- Hv, <- Hvs, Hmax. reflexivity.
Qed.

(** The theorem at a maximum of 0.5.0 and minima of 0.5.0 and 0.1.0: an
    installed 0.2.0 is accepted under both. *)
Lemma assertVectorExtension_explicit_max_ignores_min_witness :
  let v (a b c : Z) := {| Domain.major := a; Domain.minor := b; Domain.patch := c |} in
  let svc minimum :=
    {| DatabaseService.minPostgresVersion := 14;
       DatabaseService.minVectorsVersion := minimum;
       DatabaseService.maxVectorsVersion := inl (v 0%Z 5%Z 0%Z);
       DatabaseService.minVectorVersion := minimum;
       DatabaseService.maxVectorVersion := inl (v 0%Z 5%Z 0%Z) |} in
  let d :=
    {| DatabaseService.postgresVersion := v 14%Z 0%Z 0%Z;
       DatabaseService.extversion := Some (v 0%Z 2%Z 0%Z);
       DatabaseService.availableVersion := Some (v 0%Z 2%Z 0%Z);
       DatabaseService.createExtensionFails := false;
       DatabaseService.migrationsRun := 0;
       DatabaseService.logged := [] |} in
  DatabaseService.assertVectorExtension (svc (v 0%Z 5%Z 0%Z)) Domain.VECTOR d
  = DatabaseService.assertVectorExtension (svc (v 0%Z 1%Z 0%Z)) Domain.VECTOR d.
Proof.
  intros v svc d.
  apply (assertVectorExtension_explicit_max_ignores_min (svc (v 0%Z 5%Z 0%Z)) (svc (v 0%Z 1%Z 0%Z))
           Domain.VECTOR (v 0%Z 5%Z 0%Z) d); reflexivity.
Defined.

(** X17. When the installed version is the configured minimum and nothing newer
    is available, [init] returns under every pin precision and for both
    extensions: nothing is logged and the migrations run once. *)
Theorem init_accepts_minimum_version (svc : DatabaseService.Service)
    (vectorExtension : Domain.DatabaseExtension) (precision : Domain.VersionType)
    (d : DatabaseService.Database) :
  let minVersion :=
    if Domain.isVECTOR vectorExtension
    then DatabaseService.minVectorVersion svc
    else DatabaseService.minVectorsVersion svc in
  (DatabaseService.minPostgresVersion svc
   ≤ Domain.major (DatabaseService.postgresVersion d))%Z →
  DatabaseService.createExtensionFails d = false →
  (if Domain.isVECTOR vectorExtension
   then DatabaseService.maxVectorVersion svc
   else DatabaseService.maxVectorsVersion svc) = inr precision →
  DatabaseService.extversion d = Some minVersion →
  DatabaseService.availableVersion d = Some minVersion →
  DatabaseService.init svc vectorExtension d
  = (Returned tt,
     {| DatabaseService.postgresVersion := DatabaseService.postgresVersion d;
        DatabaseService.extversion := DatabaseService.extversion d;
        DatabaseService.availableVersion := DatabaseService.availableVersion d;
        DatabaseService.createExtensionFails := false;
        DatabaseService.migrationsRun := S (DatabaseService.migrationsRun d);
        DatabaseService.logged := DatabaseService.logged d |}).
Proof.
  intros minVersion Hpg Hok Hmax Hver Havail.
  destruct d as [pg ext avail fails runs logs]. simpl in *. subst fails ext avail.
  unfold DatabaseService.init, DatabaseService.assertPostgresql,
    DatabaseService.createVectorExtension, DatabaseService.createExtension,
    DatabaseService.updateVectorExtension, DatabaseService.updateExtension,
    DatabaseService.assertVectorExtension, DatabaseService.runMigrations,
    bind, gets, modify, throw, ret; simpl.
  destruct (Z.ltb_spec (Domain.major pg) (DatabaseService.minPostgresVersion svc));
    [lia|]. simpl.
  unfold Domain.isNewerThan, Domain.isOlderThan.
  rewrite !compare_refl. simpl. rewrite Hmax. fold minVersion.
  unfold Domain.isNewerThan, Domain.isOlderThan.
  rewrite !compare_refl. reflexivity.
Qed.

(** The theorem at pgvector 0.5.0 with the class's own settings. *)
Lemma init_accepts_minimum_version_witness :
  let v (a b c : Z) := {| Domain.major := a; Domain.minor := b; Domain.patch := c |} in
  let d runs :=
    {| DatabaseService.postgresVersion := v 14%Z 0%Z 0%Z;
       DatabaseService.extversion := Some (v 0%Z 5%Z 0%Z);
       DatabaseService.availableVersion := Some (v 0%Z 5%Z 0%Z);
       DatabaseService.createExtensionFails := false;
       DatabaseService.migrationsRun := runs;
       DatabaseService.logged := [] |} in
  DatabaseService.init DatabaseService.service Domain.VECTOR (d 0) = (Returned tt, d 1).
Proof.
  intros v d.
  apply (init_accepts_minimum_version DatabaseService.service Domain.VECTOR
           Domain.MAJOR (d 0)); [simpl; lia | reflexivity ..].
Defined.

(** ** The dimension of the CLIP embeddings: an unreadable catalog *)

(** X19. When the current dimension cannot be read, because the catalog has no
    such column or holds a value that is not a dimension, a valid request
    fails with the error of the read and executes no statement. *)
Theorem updateCLIPDimSize_unreadable_catalog {W : Type}
    (vectorExtension : Domain.DatabaseExtension) (dimSize : Js.number)
    (r : DatabaseRepository.Repository W) :
  InfraUtils.isValidInteger dimSize DatabaseRepository.clipDimOptions = true →
  (DatabaseRepository.atttypmod r = None →
   DatabaseRepository.updateCLIPDimSize vectorExtension dimSize r = (Threw TypeError, r))
  ∧ (∀ stored,
       DatabaseRepository.atttypmod r = Some stored →
       InfraUtils.isValidInteger stored DatabaseRepository.clipDimOptions = false →
       DatabaseRepository.updateCLIPDimSize vectorExtension dimSize r
       = (Threw CouldNotRetrieveCLIPDimSize, r)).
Proof.
  intros Hvalid. split.
  - intros Hnone. unfold DatabaseRepository.updateCLIPDimSize.
    rewrite Hvalid. cbn [negb].
    unfold DatabaseRepository.getCLIPDimSize, bind, gets, throw.
    rewrite Hnone. reflexivity.
  - intros stored Hstored Hinvalid. unfold DatabaseRepository.updateCLIPDimSize.
    rewrite Hvalid. cbn [negb].
    unfold DatabaseRepository.getCLIPDimSize, bind, gets, throw.
    rewrite Hstored, Hinvalid. reflexivity.
Qed.

(** The theorem at a column without a type modifier, which the catalog
    reports as -1. *)
Lemma updateCLIPDimSize_unreadable_catalog_witness :
  let r : DatabaseRepository.Repository unit :=
    {| DatabaseRepository.atttypmod := Some (Js.ofZ (-1));
       DatabaseRepository.executed := [];
       DatabaseRepository.asyncLock := ∅;
       DatabaseRepository.advisoryLocks := [];
       DatabaseRepository.queryRunners := [];
       DatabaseRepository.nextQueryRunner := 0;
       DatabaseRepository.rejected := (λ _, false);
       DatabaseRepository.world := tt |} in
  DatabaseRepository.updateCLIPDimSize Domain.VECTOR (Js.ofZ 512) r
  = (Threw CouldNotRetrieveCLIPDimSize, r).
Proof.
  intros r.
  apply (proj2 (updateCLIPDimSize_unreadable_catalog Domain.VECTOR (Js.ofZ 512) r eq_refl)
           (Js.ofZ (-1))); reflexivity.
Defined.

(** ** Locks: waiting *)

(** X20. [wait] does no work: on a free lock it returns and leaves the
    repository as it was, and on a taken lock it keeps waiting; the
    advisory lock of the database is not touched. *)
Theorem wait_does_no_work {W : Type} (lock : Domain.DatabaseLock)
    (r : DatabaseRepository.Repository W) :
  DatabaseRepository.wait lock r
  = (if DatabaseRepository.isBusy lock r then Pending else Returned tt, r).
Proof.
  unfold DatabaseRepository.wait, DatabaseRepository.acquire, DatabaseRepository.isBusy.
  destruct (bool_decide (Domain.lockName lock ∈ DatabaseRepository.asyncLock r)) eqn:Hbusy;
    [reflexivity|].
  apply bool_decide_eq_false in Hbusy.
  destruct r as [dim stmts queue locks runners next rej w].
  unfold ret, DatabaseRepository.setAsyncLock. simpl in *.
  rewrite (asyncLock_freed _ _ Hbusy). reflexivity.
Qed.

(** X21. While another session holds the advisory lock, [withLock] waits
    inside the process-local lock: the callback is not run, and the
    process-local lock stays taken and the query runner open. *)
Theorem withLock_waits_for_advisory_lock {W R : Type} (lock : Domain.DatabaseLock)
    (callback : DatabaseRepository.Repository W → Exc R * W)
    (r : DatabaseRepository.Repository W) :
  DatabaseRepository.isBusy lock r = false →
  existsb (λ e, (e.1 =? Domain.lockId lock)%Z
                && negb (e.2 =? DatabaseRepository.nextQueryRunner r))
    (DatabaseRepository.advisoryLocks r) = true →
  let result := DatabaseRepository.withLock lock callback r in
  result.1 = Pending
  ∧ DatabaseRepository.world result.2 = DatabaseRepository.world r
  ∧ DatabaseRepository.isBusy lock result.2 = true
  ∧ DatabaseRepository.advisoryLocks result.2 = DatabaseRepository.advisoryLocks r
  ∧ In (DatabaseRepository.nextQueryRunner r) (DatabaseRepository.queryRunners result.2).
Proof.
  intros Hfree Hheld result. unfold result.
  unfold DatabaseRepository.isBusy in Hfree.
  destruct r as [dim stmts queue locks runners next rej w].
  unfold DatabaseRepository.withLock, DatabaseRepository.acquire. simpl in *.
  rewrite Hfree.
  unfold bind, DatabaseRepository.createQueryRunner, tryFinally,
    DatabaseRepository.acquireLock; simpl.
  rewrite Hheld. simpl.
  split; [reflexivity|]. split; [reflexivity|]. split; [|split; [reflexivity|]].
  - unfold DatabaseRepository.isBusy; simpl. apply bool_decide_eq_true. set_solver.
  - left. reflexivity.
Qed.

(** The theorem at a repository whose advisory lock is held by the session
    of another process. *)
Lemma withLock_waits_for_advisory_lock_witness :
  let r : DatabaseRepository.Repository nat :=
    {| DatabaseRepository.atttypmod := None;
       DatabaseRepository.executed := [];
       DatabaseRepository.asyncLock := ∅;
       DatabaseRepository.advisoryLocks := [(420%Z, 0)];
       DatabaseRepository.queryRunners := [];
       DatabaseRepository.nextQueryRunner := 1;
       DatabaseRepository.rejected := (λ _, false);
       DatabaseRepository.world := 0 |} in
  (DatabaseRepository.withLock Domain.StorageTemplateMigration
     (λ inside, (Returned tt, S (DatabaseRepository.world inside))) r).1
  = Pending.
Proof.
  intros r.
  apply (withLock_waits_for_advisory_lock Domain.StorageTemplateMigration
           (λ inside, (Returned tt, S (DatabaseRepository.world inside))) r);
    [vm_compute; reflexivity | reflexivity].
Defined.

(** X22. A callback that never finishes keeps both locks: [withLock] stays
    waiting, with the process-local lock taken, the advisory lock held and
    the query runner open.  Only when [pg_advisory_lock] is rejected is
    such a callback not called: [withLock] then does not wait and leaves
    the process-local lock free and the world as it was. *)
Theorem withLock_unfinished_callback_keeps_locks {W R : Type}
    (lock : Domain.DatabaseLock)
    (callback : DatabaseRepository.Repository W → Exc R * W)
    (r : DatabaseRepository.Repository W) :
  DatabaseRepository.isBusy lock r = false →
  DatabaseRepository.advisoryHeld lock r = false →
  (callback (DatabaseRepository.entered lock r)).1 = Pending →
  let result := DatabaseRepository.withLock lock callback r in
  if DatabaseRepository.rejected r DatabaseRepository.PgAdvisoryLock
  then
    result.1 ≠ Pending
    ∧ DatabaseRepository.isBusy lock result.2 = false
    ∧ DatabaseRepository.world result.2 = DatabaseRepository.world r
  else
    result.1 = Pending
    ∧ DatabaseRepository.isBusy lock result.2 = true
    ∧ DatabaseRepository.advisoryHeld lock result.2 = true
    ∧ In (DatabaseRepository.nextQueryRunner r)
        (DatabaseRepository.queryRunners result.2).
Proof.
  intros Hfree Hadv Hpending result. unfold result.
  unfold DatabaseRepository.isBusy in Hfree.
  unfold DatabaseRepository.advisoryHeld in Hadv.
  destruct r as [dim stmts queue locks runners next rej w].
  unfold DatabaseRepository.withLock, DatabaseRepository.acquire,
    DatabaseRepository.entered in *. simpl in *.
  rewrite Hfree. apply bool_decide_eq_false in Hfree.
  unfold bind, DatabaseRepository.createQueryRunner, tryFinally,
    DatabaseRepository.acquireLock, DatabaseRepository.call; simpl.
  rewrite (advisoryHeld_false_no_other lock next locks Hadv).
  destruct (rej DatabaseRepository.PgAdvisoryLock) eqn:Hlock; simpl.
  - unfold DatabaseRepository.releaseLock, DatabaseRepository.release,
      DatabaseRepository.isBusy; simpl.
    destruct (rej DatabaseRepository.PgAdvisoryUnlock) eqn:Hunlock,
      (rej DatabaseRepository.ReleaseRunner) eqn:Hrelease;
      simpl; rewrite ?Hrelease, ?Hunlock; simpl;
      (split; [discriminate|]); (split; [|reflexivity]);
      rewrite (asyncLock_freed _ _ Hfree); apply bool_decide_eq_false; exact Hfree.
  - destruct (callback _) as [res w'] eqn:Hcb. simpl in Hpending. subst res. simpl.
    split; [reflexivity|]. split; [|split].
    + unfold DatabaseRepository.isBusy; simpl. apply bool_decide_eq_true. set_solver.
    + unfold DatabaseRepository.advisoryHeld; simpl. rewrite Z.eqb_refl. reflexivity.
    + left. reflexivity.
Qed.

(** The theorem at a callback that never finishes. *)
Lemma withLock_unfinished_callback_keeps_locks_witness :
  let r : DatabaseRepository.Repository nat :=
    {| DatabaseRepository.atttypmod := None;
       DatabaseRepository.executed := [];
       DatabaseRepository.asyncLock := ∅;
       DatabaseRepository.advisoryLocks := [];
       DatabaseRepository.queryRunners := [];
       DatabaseRepository.nextQueryRunner := 0;
       DatabaseRepository.rejected := (λ _, false);
       DatabaseRepository.world := 0 |} in
  let result :=
    DatabaseRepository.withLock Domain.GeodataImport
      (λ inside, (@Pending unit, DatabaseRepository.world inside)) r in
  result.1 = Pending
  ∧ DatabaseRepository.isBusy Domain.GeodataImport result.2 = true
  ∧ DatabaseRepository.advisoryHeld Domain.GeodataImport result.2 = true
  ∧ In 0 (DatabaseRepository.queryRunners result.2).
Proof.
  intros r result.
  apply (withLock_unfinished_callback_keeps_locks Domain.GeodataImport
           (λ inside, (@Pending unit, DatabaseRepository.world inside)) r);
    [vm_compute; reflexivity | reflexivity | reflexivity].
Defined.

(** ** Face search: the valid, the refused and the unlimited *)

Section RankingFacts.
Import SmartInfoRepository.
Context {A : Type} (key : A → Q).





End RankingFacts.



(** X23. For a [numResults] that is a positive integer and at least one user
    id, [searchFaces] returns at most [max(numResults, 64)] rows, closest
    first, each within [maxDistance] and without the embedding among its
    columns; with [hasPerson], no row has a null [personId]; and the
    search breadth sent to the session is that limit. *)
Theorem searchFaces_limited_ranked_within
    (distanceTo : SmartInfoRepository.Embedding → SmartInfoRepository.Embedding → Q)
    (ownColumnNames : list string) (faces : list SmartInfoRepository.AssetFaceEntity)
    (s : SmartInfoRepository.FaceEmbeddingSearch) (n : Js.number) :
  SmartInfoRepository.numResults s = Some n →
  InfraUtils.isValidInteger n
    {| InfraUtils.opt_min := Some 1%Z; InfraUtils.opt_max := None |} = true →
  SmartInfoRepository.userIds s ≠ [] →
  let limit := Z.max (Js.toZ n) 64 in
  let result := SmartInfoRepository.searchFaces distanceTo ownColumnNames faces s in
  ∃ rows,
    result.1 = Returned rows
    ∧ length rows ≤ Z.to_nat limit
    ∧ StronglySorted Qle (map SmartInfoRepository.distance rows)
    ∧ Forall (λ row, ∃ m, SmartInfoRepository.maxDistance s = Some m
                          ∧ (SmartInfoRepository.distance row <= m)%Q) rows
    ∧ Forall (λ row, ¬ In "embedding" (map fst (SmartInfoRepository.face row))) rows
    ∧ (SmartInfoRepository.hasPerson s = Some true →
       Forall (λ row, ¬ In ("personId", Js.VNull) (SmartInfoRepository.face row)) rows)
    ∧ result.2
      = [SmartInfoRepository.EnablePrefilter; SmartInfoRepository.SearchModeBasic;
         SmartInfoRepository.HnswEfSearch limit].
Proof.
  intros Hn Hvalid Husers limit result.
  destruct (searchFaces_valid_numResults distanceTo ownColumnNames faces s n
              Hn Hvalid Husers)
    as (rows & Hrows & Hlen & Hsorted & Hwithin & Hcolumns).
  exists rows. repeat (split; [assumption|]).
  unfold result, SmartInfoRepository.searchFaces in *.
  rewrite Hn, (candidateLimit_valid n Hvalid) in *.
  destruct (SmartInfoRepository.userIds s) as [|u us] eqn:Hu; [congruence|].
  cbn [fst snd] in *.
  split; [|reflexivity].
  intros Hperson. injection Hrows as <-.
  destruct (candidates_ranked distanceTo faces s (Some (Z.max (Js.toZ n) 64)))
    as (_ & _ & Hlinked & _).
  specialize (Hlinked Hperson).
  apply List.Forall_forall. intros row Hrow. apply filter_In in Hrow as [Hrow _].
  apply in_map_iff in Hrow as (f & <- & Hf). simpl.
  rewrite List.Forall_forall in Hlinked. specialize (Hlinked f Hf).
  intros Hin. apply in_map_iff in Hin as (col & Hcol & _).
  injection Hcol as Hname Hnull. subst col. congruence.
Qed.

(** The theorem at a search for the single closest face among three. *)
Lemma searchFaces_limited_ranked_within_witness :
  let faceAt (d : Q) (person : Js.Value) :=
    {| SmartInfoRepository.ownColumns :=
         [("id", Js.VStr "face"); ("personId", person); ("embedding", Js.VVec [d])];
       SmartInfoRepository.asset :=
         Some {| SmartInfoRepository.assetOwnerId := "user";
                 SmartInfoRepository.assetDeletedAt := None |} |} in
  let search :=
    {| SmartInfoRepository.userIds := ["user"];
       SmartInfoRepository.embedding := [0%Q];
       SmartInfoRepository.numResults := Some (Js.ofZ 1);
       SmartInfoRepository.maxDistance := Some (1 # 2)%Q;
       SmartInfoRepository.hasPerson := Some true |} in
  let firstOf (v : SmartInfoRepository.Embedding) := match v with d :: _ => d | [] => 0%Q end in
  (SmartInfoRepository.searchFaces (λ a b, firstOf a) ["id"; "personId"; "embedding"]
     [faceAt (3 # 4)%Q (Js.VStr "p1"); faceAt (1 # 4)%Q Js.VNull; faceAt (1 # 3)%Q (Js.VStr "p2")]
     search).2
  = [SmartInfoRepository.EnablePrefilter; SmartInfoRepository.SearchModeBasic;
     SmartInfoRepository.HnswEfSearch 64].
Proof.
  intros faceAt search firstOf.
  destruct (searchFaces_limited_ranked_within (λ a b, firstOf a)
              ["id"; "personId"; "embedding"]
              [faceAt (3 # 4)%Q (Js.VStr "p1"); faceAt (1 # 4)%Q Js.VNull;
               faceAt (1 # 3)%Q (Js.VStr "p2")]
              search (Js.ofZ 1) eq_refl eq_refl)
    as (rows & _ & _ & _ & _ & _ & _ & Hconfig); [discriminate|].
  exact Hconfig.
Defined.

(** X24. The two ways [searchFaces] fails.  A [numResults] that is not zero
    and not a positive integer, such as a negative number or a fraction,
    makes it throw the validation error, and no runtime configuration is
    sent.  With a [numResults] that is accepted and no user id at all, the
    runtime configuration is sent and the search is then refused by the
    database. *)
Theorem searchFaces_refuses_invalid_numResults
    (distanceTo : SmartInfoRepository.Embedding → SmartInfoRepository.Embedding → Q)
    (ownColumnNames : list string) (faces : list SmartInfoRepository.AssetFaceEntity)
    (s : SmartInfoRepository.FaceEmbeddingSearch) :
  (∀ n : Js.number,
     SmartInfoRepository.numResults s = Some n →
     Js.truthy n = true →
     InfraUtils.isValidInteger n
       {| InfraUtils.opt_min := Some 1%Z; InfraUtils.opt_max := None |} = false →
     SmartInfoRepository.searchFaces distanceTo ownColumnNames faces s
     = (Threw (InvalidNumResults n), []))
  ∧ (∀ limit : option Z,
       SmartInfoRepository.candidateLimit (SmartInfoRepository.numResults s)
       = Returned limit →
       SmartInfoRepository.userIds s = [] →
       ∃ e : Error,
         SmartInfoRepository.searchFaces distanceTo ownColumnNames faces s
         = (Threw e,
            [SmartInfoRepository.EnablePrefilter; SmartInfoRepository.SearchModeBasic]
            ++ match limit with
               | Some l => [SmartInfoRepository.HnswEfSearch l]
               | None => []
               end)).
Proof.
  split.
  - intros n Hn Htruthy Hinvalid.
    unfold SmartInfoRepository.searchFaces, SmartInfoRepository.candidateLimit,
      SmartInfoRepository.numResultsGiven.
    rewrite Hn, Htruthy, Hinvalid. reflexivity.
  - intros limit Hlimit Husers. unfold SmartInfoRepository.searchFaces.
    rewrite Hlimit, Husers. eexists. reflexivity.
Qed.

(** The theorem at [numResults = 2.5]. *)
Lemma searchFaces_refuses_invalid_numResults_witness :
  SmartInfoRepository.searchFaces (λ _ _, 0%Q) ["id"; "embedding"] []
    {| SmartInfoRepository.userIds := ["user"];
       SmartInfoRepository.embedding := [];
       SmartInfoRepository.numResults := Some (Js.Num (5 # 2)%Q);
       SmartInfoRepository.maxDistance := Some 1%Q;
       SmartInfoRepository.hasPerson := None |}
  = (Threw (InvalidNumResults (Js.Num (5 # 2)%Q)), []).
Proof.
  apply (proj1 (searchFaces_refuses_invalid_numResults (λ _ _, 0%Q) ["id"; "embedding"] []
                  {| SmartInfoRepository.userIds := ["user"];
                     SmartInfoRepository.embedding := [];
                     SmartInfoRepository.numResults := Some (Js.Num (5 # 2)%Q);
                     SmartInfoRepository.maxDistance := Some 1%Q;
                     SmartInfoRepository.hasPerson := None |}));
    reflexivity.
Defined.



(** ** CLIP search *)

Section ClipSearchFacts.
Import SmartInfoRepository ClipSearch.



End ClipSearchFacts.

(** X26. [searchCLIP] refuses every [numResults] that is given and is not a
    positive integer, zero included, before anything is sent to the
    session. *)
Theorem searchCLIP_refuses_invalid_numResults
    (distanceTo : SmartInfoRepository.Embedding → SmartInfoRepository.Embedding → Q)
    (vectorExtension : Domain.DatabaseExtension) (now : Z)
    (assets : list ClipSearch.AssetRow) (s : ClipSearch.EmbeddingSearch)
    (n : Js.number) :
  ClipSearch.numResults s = Some n →
  (¬ ∃ z : Z, (1 ≤ z ≤ Js.MAX_SAFE_INTEGER)%Z ∧ Js.strictEq n (Js.ofZ z) = true) →
  ClipSearch.searchCLIP distanceTo vectorExtension now assets s
  = (Threw (InvalidNumResults n), []).
Proof.
  intros Hn Hinvalid. unfold ClipSearch.searchCLIP, ClipSearch.refused.
  rewrite Hn.
  destruct (InfraUtils.isValidInteger n ClipSearch.numResultsOptions) eqn:Hvalid;
    [|reflexivity].
  exfalso. apply Hinvalid.
  apply (isValidInteger_spec n 1 Js.MAX_SAFE_INTEGER). exact Hvalid.
Qed.

(** The theorem at [numResults = 0]. *)
Lemma searchCLIP_refuses_invalid_numResults_witness :
  ClipSearch.searchCLIP (λ _ _, 0%Q) Domain.VECTORS 0 []
    {| ClipSearch.userIds := ["user"]; ClipSearch.embedding := [];
       ClipSearch.numResults := Some (Js.ofZ 0); ClipSearch.withArchived := None |}
  = (Threw (InvalidNumResults (Js.ofZ 0)), []).
Proof.
  apply searchCLIP_refuses_invalid_numResults; [reflexivity|].
  intros (z & Hz & Heq). apply Qeq_bool_iff in Heq.
  unfold Qeq in Heq; simpl in Heq. lia.
Defined.



(** ** Storing an embedding *)

(** X28. With a non-empty asset id, an embedding and a successful write of the
    smart-info record, [upsert] goes on to the table of embeddings.  For
    an asset that exists and an embedding of the width of the column it
    returns, the embedding of the asset is the one given, in single
    precision, replacing any earlier one, and the embedding of every
    other asset is as before.  For an embedding of another width it
    throws, with the smart-info record written and the embeddings as
    before. *)
Theorem upsert_stores_embedding {I : Type}
    (repositoryUpsert : SmartInfoRepository.SmartInfoEntity → I → Exc I)
    (smartInfo : SmartInfoRepository.SmartInfoEntity) (id : string)
    (embedding : SmartInfoRepository.Embedding) (t : SmartInfoRepository.Tables I) (i : I) :
  SmartInfoRepository.assetId smartInfo = Some id →
  id ≠ "" →
  repositoryUpsert smartInfo (SmartInfoRepository.smart_info t) = Returned i →
  let result := SmartInfoRepository.upsert repositoryUpsert smartInfo (Some embedding) t in
  SmartInfoRepository.smart_info result.2 = i
  ∧ (id ∈ SmartInfoRepository.assetIds t →
     0 < length embedding →
     length embedding = SmartInfoRepository.dimSize t →
     result.1 = Returned tt
     ∧ SmartInfoRepository.smart_search result.2 !! id
       = Some (map (SmartInfoRepository.float4 t) embedding)
     ∧ ∀ other : string,
         other ≠ id →
         SmartInfoRepository.smart_search result.2 !! other
         = SmartInfoRepository.smart_search t !! other)
  ∧ (length embedding ≠ SmartInfoRepository.dimSize t →
     result.1 = Threw (QueryFailed "smart_search")
     ∧ SmartInfoRepository.smart_search result.2 = SmartInfoRepository.smart_search t).
Proof.
  intros Hid Hne Hrepo result. unfold result.
  rewrite (upsert_with_embedding repositoryUpsert smartInfo id embedding t i Hid Hne Hrepo).
  rewrite upsertEmbedding_outcome. cbn [SmartInfoRepository.assetIds
    SmartInfoRepository.dimSize SmartInfoRepository.float4 SmartInfoRepository.smart_info
    SmartInfoRepository.smart_search].
  split; [|split].
  - destruct (_ && _); reflexivity.
  - intros Hasset Hpos Hlen.
    rewrite bool_decide_eq_true_2 by exact Hasset.
    rewrite (proj2 (Nat.ltb_lt _ _) Hpos), (proj2 (Nat.eqb_eq _ _) Hlen). simpl.
    split; [reflexivity|]. split.
    + apply lookup_insert_eq.
    + intros other Hother. apply lookup_insert_ne. congruence.
  - intros Hlen. rewrite (proj2 (Nat.eqb_neq _ _) Hlen), andb_false_r.
    split; reflexivity.
Qed.

(** The theorem at an asset that already has an embedding. *)
Lemma upsert_stores_embedding_witness :
  let smartInfo :=
    {| SmartInfoRepository.assetId := Some "asset-1";
       SmartInfoRepository.tags := None; SmartInfoRepository.objects := None |} in
  let t : SmartInfoRepository.Tables nat :=
    {| SmartInfoRepository.smart_info := 0;
       SmartInfoRepository.assetIds := {["asset-1"]};
       SmartInfoRepository.dimSize := 1;
       SmartInfoRepository.float4 := (λ q, q);
       SmartInfoRepository.smart_search := {["asset-1" := [1 # 2]%Q]} |} in
  SmartInfoRepository.smart_search
    (SmartInfoRepository.upsert (λ _ n, Returned (S n)) smartInfo (Some [3 # 4]%Q) t).2
  !! "asset-1"
  = Some [3 # 4]%Q.
Proof.
  intros smartInfo t.
  apply (proj1 (proj2 (upsert_stores_embedding (λ _ n, Returned (S n)) smartInfo "asset-1"
           [3 # 4]%Q t 1 eq_refl ltac:(discriminate) eq_refl)));
    [apply elem_of_singleton; reflexivity | simpl; lia | reflexivity].
Defined.

(** X29. When the write of the smart-info record fails, [upsert] fails with the
    same error and stores no embedding, even when an asset id and an
    embedding are given. *)
Theorem upsert_failed_write_stores_nothing {I : Type}
    (repositoryUpsert : SmartInfoRepository.SmartInfoEntity → I → Exc I)
    (smartInfo : SmartInfoRepository.SmartInfoEntity)
    (embedding : option SmartInfoRepository.Embedding)
    (t : SmartInfoRepository.Tables I) (e : Error) :
  repositoryUpsert smartInfo (SmartInfoRepository.smart_info t) = Threw e →
  SmartInfoRepository.upsert repositoryUpsert smartInfo embedding t = (Threw e, t).
Proof.
  intros Hrepo. unfold SmartInfoRepository.upsert, bind, SmartInfoRepository.upsertSmartInfo.
  rewrite Hrepo. reflexivity.
Qed.

(** The theorem at a write that the database refuses. *)
Lemma upsert_failed_write_stores_nothing_witness :
  let smartInfo :=
    {| SmartInfoRepository.assetId := Some "asset-1";
       SmartInfoRepository.tags := None; SmartInfoRepository.objects := None |} in
  let t : SmartInfoRepository.Tables nat :=
    {| SmartInfoRepository.smart_info := 0;
       SmartInfoRepository.assetIds := {["asset-1"]};
       SmartInfoRepository.dimSize := 1;
       SmartInfoRepository.float4 := (λ q, q);
       SmartInfoRepository.smart_search := ∅ |} in
  SmartInfoRepository.upsert (λ _ _, Threw (QueryFailed "upsert")) smartInfo
    (Some [3 # 4]%Q) t
  = (Threw (QueryFailed "upsert"), t).
Proof.
  intros smartInfo t.
  apply (upsert_failed_write_stores_nothing (λ _ _, Threw (QueryFailed "upsert"))).
  reflexivity.
Defined.

(** ** The search page *)

(** X30. After a successful authentication, [load] calls the search API at most
    once, and not at all when neither [q] nor [query] is a non-empty
    string: the page then has no term and no results.  Otherwise the term
    is [q] if that is not empty and [query] if it is, never the empty
    string, and the items of the page are the items shown before followed
    by the items of the response, whose albums and other fields are kept. *)
Theorem load_searches_only_with_a_term {A O B : Type}
    (search : list (string * string) → Exc (SearchPage.SearchResponseDto A O B))
    (searchParams : list (string * string)) (previous : option (list A)) (calls : nat) :
  let q := SearchPage.get "q" searchParams in
  let query := SearchPage.get "query" searchParams in
  let result := SearchPage.load (Returned tt) search searchParams previous calls in
  (Js.truthyString q = false → Js.truthyString query = false →
   result
   = (Returned {| SearchPage.term := None; SearchPage.results := None;
                  SearchPage.title := "Search" |}, calls))
  ∧ (Js.truthyString q = true ∨ Js.truthyString query = true →
     result.2 = S calls
     ∧ ∀ page, result.1 = Returned page →
         SearchPage.term page = (if Js.truthyString q then q else query)
         ∧ SearchPage.term page ≠ Some ""
         ∧ ∃ fetched res,
             search searchParams = Returned fetched
             ∧ SearchPage.results page = Some res
             ∧ SearchPage.items (SearchPage.assets res)
               = default [] previous ++ SearchPage.items (SearchPage.assets fetched)
             ∧ SearchPage.other (SearchPage.assets res)
               = SearchPage.other (SearchPage.assets fetched)
             ∧ SearchPage.albums res = SearchPage.albums fetched).
Proof.
  intros q query result. unfold result, SearchPage.load, bind, ret. fold q query.
  unfold SearchPage.or.
  destruct (Js.truthyString q) eqn:Hq; [|destruct (Js.truthyString query) eqn:Hquery].
  - simpl; rewrite ?Hq; simpl; rewrite ?Hq; simpl. split; [discriminate|]. intros _.
    destruct (search searchParams) as [fetched|e|] eqn:Hsearch; simpl;
      (split; [reflexivity|]); intros page [= <-]; simpl.
    split; [reflexivity|]. split.
    + intros Hempty. rewrite Hempty in Hq. discriminate Hq.
    + exists fetched. eexists. split; [reflexivity|]. split; [reflexivity|].
      destruct previous; simpl; auto.
  - simpl; rewrite ?Hquery; simpl; rewrite ?Hquery; simpl.
    split; [discriminate|]. intros _.
    destruct (search searchParams) as [fetched|e|] eqn:Hsearch; simpl;
      (split; [reflexivity|]); intros page [= <-]; simpl.
    split; [reflexivity|]. split.
    + intros Hempty. rewrite Hempty in Hquery. discriminate Hquery.
    + exists fetched. eexists. split; [reflexivity|]. split; [reflexivity|].
      destruct previous; simpl; auto.
  - simpl; rewrite ?Hquery; simpl. split; [reflexivity|].
    intros [H|H]; discriminate H.
Qed.

(** The theorem at the address [?q=&query=beach], with one item already
    shown. *)
Lemma load_searches_only_with_a_term_witness :
  let response : SearchPage.SearchResponseDto nat nat (list string) :=
    {| SearchPage.assets := {| SearchPage.items := [2; 3]; SearchPage.other := 2 |};
       SearchPage.albums := ["holidays"] |} in
  (SearchPage.load (Returned tt) (λ _, Returned response)
     [("q", ""); ("query", "beach")] (Some [1]) 0).2
  = 1.
Proof.
  intros response.
  apply (proj2 (load_searches_only_with_a_term (λ _, Returned response)
                  [("q", ""); ("query", "beach")] (Some [1]) 0)).
  right. reflexivity.
Defined.
